(** * The ESP32 control backend: an Express gateway with two proxied upstreams

  A shallow embedding of [src/index.js] and of the earlier version of the
  same file kept in [src/unnamed/part_000].  Both files build an Express
  application: a CORS middleware, a local health check, and a set of
  [app.get] routes whose handler is a proxy middleware created by
  [createProxyMiddleware] from an options literal.

  Layout:
  - [JsString], [JsObject]: the JavaScript values the handlers work on
    (strings, insertion-ordered objects such as [req.headers]);
  - [Http], [Req], [ProxyRes], [Res], [Outgoing], [Upstream]: messages,
    the response object, the behaviour of an upstream;
  - [Effects]: a state-and-exception monad for handler bodies;
  - [Express], [Cors], [Proxy]: what the three packages do with the
    configuration literals of the source;
  - [App]: route table, dispatch and the running process;
  - [Index] and [Part000]: the two source files, definition by definition;
  - [Gateway], [Outcome], [Samples], [Platform], [Cases]: vocabulary
    for the statements;
  - lemmas, then the properties of the gateway (C1 to C10), then further
    properties of the two files (X1 to X17).

  The proxy package is described as it behaves in the versions that
  take [onProxyRes] and [onError] at the top level of the options, as
  the sources write them (http-proxy-middleware 2, on top of
  http-proxy). *)

From Stdlib Require Import String Ascii List Bool Arith Lia.
Import ListNotations.
Open Scope string_scope.

(* ------------------------------------------------------------------ *)
(** ** JavaScript strings *)

Module JsString.

(** ASCII lower-casing, as Node applies to header names and as the [i]
    flag of a route's regular expression compares letters. *)
Definition lower_ascii (c : ascii) : ascii :=
  let n := nat_of_ascii c in
  if ((65 <=? n) && (n <=? 90))%nat then ascii_of_nat (n + 32) else c.

Fixpoint toLowerCase (s : string) : string :=
  match s with
  | EmptyString => EmptyString
  | String c r => String (lower_ascii c) (toLowerCase r)
  end.

Fixpoint startsWith (p s : string) : bool :=
  match p, s with
  | EmptyString, _ => true
  | String a p', String b s' => Ascii.eqb a b && startsWith p' s'
  | String _ _, EmptyString => false
  end.

Fixpoint drop (n : nat) (s : string) : string :=
  match n, s with
  | O, _ => s
  | S n', String _ r => drop n' r
  | S _, EmptyString => EmptyString
  end.

Fixpoint take (n : nat) (s : string) : string :=
  match n, s with
  | O, _ => EmptyString
  | S n', String c r => String c (take n' r)
  | S _, EmptyString => EmptyString
  end.

Fixpoint endsWithSlash (s : string) : bool :=
  match s with
  | EmptyString => false
  | String c EmptyString => Ascii.eqb c "/"
  | String _ r => endsWithSlash r
  end.

(** [req.url] is the request target.  For a target in origin form that
    has no fragment ([plainTarget] below) the router's parser takes
    everything before the first question mark as the path name:
    [pathname] is what the router matches on, [search] the rest (empty,
    or starting with the question mark).  A target in absolute form or
    with a fragment goes through Node's [url.parse] instead, which this
    development does not describe; statements that depend on the path
    name of an arbitrary request assume [plainTarget]. *)
Fixpoint pathname (u : string) : string :=
  match u with
  | EmptyString => EmptyString
  | String c r => if Ascii.eqb c "?" then EmptyString else String c (pathname r)
  end.


(** The characters that stand for themselves in a [RegExp] source. *)
Definition literal_char (c : ascii) : bool :=
  let n := nat_of_ascii c in
  (((48 <=? n) && (n <=? 57)) || ((65 <=? n) && (n <=? 90))
   || ((97 <=? n) && (n <=? 122)) || (n =? 47) || (n =? 95))%nat.

Fixpoint literal (s : string) : bool :=
  match s with
  | EmptyString => true
  | String c r => literal_char c && literal r
  end.

(** First position at which [p] occurs in [s]. *)
Fixpoint indexOf (p s : string) : option nat :=
  if startsWith p s then Some 0
  else match s with
       | EmptyString => None
       | String _ r => option_map S (indexOf p r)
       end.

(** The characters at which the router's parser leaves its fast path:
    tab, line feed, form feed, carriage return, space, [#] and the
    no-break space. *)
Definition leavesFastPath (c : ascii) : bool :=
  let n := nat_of_ascii c in
  ((n =? 9) || (n =? 10) || (n =? 12) || (n =? 13) || (n =? 32)
   || (n =? 35) || (n =? 160))%nat.

Fixpoint fastPath (s : string) : bool :=
  match s with
  | EmptyString => true
  | String c r => negb (leavesFastPath c) && fastPath r
  end.

(** A request target the router splits at the first question mark: it
    starts with a slash and stays on the fast path. *)
Definition plainTarget (u : string) : bool :=
  match u with
  | String "/" r => fastPath r
  | _ => false
  end.

(** The class [\s] of a regular expression, among the characters of a
    header value. *)
Definition whitespace (c : ascii) : bool :=
  let n := nat_of_ascii c in
  (((9 <=? n) && (n <=? 13)) || (n =? 32) || (n =? 160))%nat.

Fixpoint trimStart (s : string) : string :=
  match s with
  | EmptyString => EmptyString
  | String c r => if whitespace c then trimStart r else s
  end.

Fixpoint trimEnd (s : string) : string :=
  match s with
  | EmptyString => EmptyString
  | String c r =>
      match trimEnd r with
      | EmptyString => if whitespace c then EmptyString else String c EmptyString
      | r' => String c r'
      end
  end.

Definition trim (s : string) : string := trimEnd (trimStart s).

(** [s.split(sep)] for a separator of one character. *)
Fixpoint split (sep : ascii) (s : string) : list string :=
  match s with
  | EmptyString => [EmptyString]
  | String c r =>
      if Ascii.eqb c sep then EmptyString :: split sep r
      else match split sep r with
           | h :: t => String c h :: t
           | [] => [String c EmptyString]
           end
  end.

End JsString.

(* ------------------------------------------------------------------ *)
(** ** JavaScript objects with string keys

  [req.headers] and [proxyRes.headers] are plain objects.  Their keys are
  compared exactly (case matters) and enumerated in insertion order, which
  is the order in which the proxy later copies them; an association list
  keeps both. *)

Module JsObject.

Definition t := list (string * string).

Definition hasOwnProperty (k : string) (o : t) : bool :=
  existsb (fun kv => String.eqb (fst kv) k) o.

Fixpoint get (k : string) (o : t) : option string :=
  match o with
  | [] => None
  | (k', v) :: r => if String.eqb k' k then Some v else get k r
  end.

(** [o[k] = v]: an existing property keeps its place and takes the new
    value, a new property goes to the end. *)
Definition set (k v : string) (o : t) : t :=
  if hasOwnProperty k o
  then map (fun kv => if String.eqb (fst kv) k then (k, v) else kv) o
  else (o ++ [(k, v)])%list.

(** [delete o[k]] *)
Definition delete (k : string) (o : t) : t :=
  filter (fun kv => negb (String.eqb (fst kv) k)) o.

Definition keys (o : t) : list string := map fst o.

(** The shape Node gives to the headers of a message it has parsed: every
    name in lower case. *)
Definition lowerCaseKeys (o : t) : bool :=
  forallb (fun kv => String.eqb (JsString.toLowerCase (fst kv)) (fst kv)) o.

End JsObject.

(* ------------------------------------------------------------------ *)
(** ** HTTP messages as the handlers see them *)

Module Http.

Inductive Method := GET | HEAD | POST | PUT | DELETE | PATCH | OPTIONS.

Definition Method_eqb (a b : Method) : bool :=
  match a, b with
  | GET, GET | HEAD, HEAD | POST, POST | PUT, PUT
  | DELETE, DELETE | PATCH, PATCH | OPTIONS, OPTIONS => true
  | _, _ => false
  end.

Definition chunk := list Byte.byte.

(** The values passed to [res.json]. *)
#[warnings="-register-all"] Inductive Json :=
| JString (s : string)
| JObject (members : list (string * Json)).

Fixpoint member (k : string) (ms : list (string * Json)) : option Json :=
  match ms with
  | [] => None
  | (k', j) :: r => if String.eqb k' k then Some j else member k r
  end.

Inductive Errno := ECONNREFUSED | EHOSTUNREACH | ENOTFOUND | ETIMEDOUT | ECONNRESET.

Inductive JsError :=
| NetworkError (code : Errno)
| ERR_HTTP_HEADERS_SENT
| TypeError.

(** What has been written to the client, in the order of the calls. *)
Inductive Payload :=
| Encoded (j : Json)                       (* res.json(j) *)
| Text (s : string)                        (* res.send(s), res.end(s) *)
| Buffer (c : chunk)                       (* res.write(c), from a pipe *)
| Page (streamTest : bool) (port : nat) (car cam : string)
                                           (* the HTML template of GET / *)
| ErrorPage.                               (* Express's own error page *)

End Http.

(** [req]: the inbound request.  Node has already lower-cased the names in
  [headers]; [httpVersion] is the version on the request line (["1.0"],
  ["1.1"]); requests carry no body (every route is registered with
  [app.get]). *)
Module Req.
Record t := {
  method : Http.Method;
  url : string;
  httpVersion : string;
  headers : JsObject.t
}.
End Req.

(** [proxyRes]: status line and headers of the upstream's answer. *)
Module ProxyRes.
Record t := { statusCode : nat; headers : JsObject.t }.

(** [proxyRes.headers[name] = value] *)
Definition assign (name value : string) (p : t) : t :=
  {| statusCode := statusCode p;
     headers := JsObject.set name value (headers p) |}.
End ProxyRes.

(** [res]: the response under construction.  Header names are
  case-insensitive here: [setHeader] files them under their lower-case
  form.  [headers] holds what the source, [cors] and the proxy set; the
  headers Express and Node add on their own (Content-Length, ETag,
  X-Powered-By and the like) are not tracked. *)
Module Res.
Record t := {
  statusCode : nat;
  headers : JsObject.t;
  headersSent : bool;
  hasBody : bool;
  body : list Http.Payload;
  finished : bool;
  destroyed : bool
}.

(** The response Node creates for a request; the answer to a HEAD
    request has no body. *)
Definition fresh (m : Http.Method) : t :=
  {| statusCode := 200; headers := []; headersSent := false;
     hasBody := negb (Http.Method_eqb m Http.HEAD);
     body := []; finished := false; destroyed := false |}.

Definition getHeader (name : string) (r : t) : option string :=
  JsObject.get (JsString.toLowerCase name) (headers r).

Definition setHeader (name value : string) (r : t) : t :=
  {| statusCode := statusCode r;
     headers := JsObject.set (JsString.toLowerCase name) value (headers r);
     headersSent := headersSent r; hasBody := hasBody r; body := body r;
     finished := finished r; destroyed := destroyed r |}.

Definition status (code : nat) (r : t) : t :=
  {| statusCode := code; headers := headers r;
     headersSent := headersSent r; hasBody := hasBody r; body := body r;
     finished := finished r; destroyed := destroyed r |}.

(** [res.write]: the head goes out with the first piece of the body; a
    response without body drops the piece. *)
Definition write (p : Http.Payload) (r : t) : t :=
  {| statusCode := statusCode r; headers := headers r;
     headersSent := true; hasBody := hasBody r;
     body := if hasBody r then (body r ++ [p])%list else body r;
     finished := finished r; destroyed := destroyed r |}.

Definition end_ (r : t) : t :=
  {| statusCode := statusCode r; headers := headers r;
     headersSent := true; hasBody := hasBody r; body := body r;
     finished := true; destroyed := destroyed r |}.

Definition destroy (r : t) : t :=
  {| statusCode := statusCode r; headers := headers r;
     headersSent := headersSent r; hasBody := hasBody r; body := body r;
     finished := finished r; destroyed := true |}.

(** The bytes a relayed body has delivered so far. *)
Fixpoint received (b : list Http.Payload) : Http.chunk :=
  match b with
  | [] => []
  | Http.Buffer c :: r => (c ++ received r)%list
  | _ :: r => received r
  end.
End Res.

(** The request the proxy sends to an upstream: the configured [target]
  and, relative to it, method, request target and headers. *)
Module Outgoing.
Record t := {
  target : string;
  method : Http.Method;
  url : string;
  headers : JsObject.t
}.
End Outgoing.

(** How an upstream behaves towards one request.  [Streaming] is an answer
  in progress: the head and the listed chunks have arrived and the
  upstream has not closed yet. *)
Inductive Upstream :=
| Unreachable (code : Http.Errno)
| Hangs
| Streaming (head : ProxyRes.t) (chunks : list Http.chunk)
| Responds (head : ProxyRes.t) (chunks : list Http.chunk).

(* ------------------------------------------------------------------ *)
(** ** Handler bodies: state, environment and exceptions

  A handler reads the clock and the network, and acts on the console,
  on [res], and on the list of requests sent upstream.  A [throw] keeps
  the state reached so far.  Two lists make up what reaches the standard
  error of the process: [console] holds the lines the source itself
  passes to [console.error], [reported] the errors for which the proxy
  package prints a line of its own (the one that starts with [[HPM]]);
  the order between the two lists is not recorded. *)

Module Effects.

Definition LogLine := (string * Http.JsError)%type.

Record Env := { now : string; net : Outgoing.t -> Upstream }.

Record World := {
  console : list LogLine;
  reported : list Http.JsError;
  outgoing : list Outgoing.t;
  res : Res.t;
  uncaught : option Http.JsError
}.

Inductive Completion (A : Type) :=
| Normal (a : A)
| Throw (e : Http.JsError).
Arguments Normal {A} a.
Arguments Throw {A} e.

Definition M (A : Type) := Env -> World -> Completion A * World.

Definition ret {A} (a : A) : M A := fun _ w => (Normal a, w).

Definition bind {A B} (c : M A) (k : A -> M B) : M B :=
  fun env w =>
    match c env w with
    | (Normal a, w') => k a env w'
    | (Throw e, w') => (Throw e, w')
    end.

Definition throw {A} (e : Http.JsError) : M A := fun _ w => (Throw e, w).

Definition onRes (f : Res.t -> Res.t) : M unit :=
  fun _ w =>
    (Normal tt,
     {| console := console w; reported := reported w; outgoing := outgoing w;
        res := f (res w); uncaught := uncaught w |}).

Definition getRes : M Res.t := fun _ w => (Normal (res w), w).

Definition toISOString : M string := fun env w => (Normal (now env), w).

Definition console_error (msg : string) (err : Http.JsError) : M unit :=
  fun _ w =>
    (Normal tt,
     {| console := (console w ++ [(msg, err)])%list; reported := reported w;
        outgoing := outgoing w; res := res w; uncaught := uncaught w |}).

(** The proxy package's own report of an error it has passed to the
    error handlers. *)
Definition logError (err : Http.JsError) : M unit :=
  fun _ w =>
    (Normal tt,
     {| console := console w; reported := (reported w ++ [err])%list;
        outgoing := outgoing w; res := res w; uncaught := uncaught w |}).

(** Sending a request upstream records it and yields the upstream's
    behaviour. *)
Definition request (o : Outgoing.t) : M Upstream :=
  fun env w =>
    (Normal (net env o),
     {| console := console w; reported := reported w;
        outgoing := (outgoing w ++ [o])%list;
        res := res w; uncaught := uncaught w |}).

(** A callback run from the event loop has no caller to catch what it
    throws: the exception is uncaught. *)
Definition listener (c : M unit) : M unit :=
  fun env w =>
    match c env w with
    | (Normal _, w') => (Normal tt, w')
    | (Throw e, w') =>
        (Normal tt,
         {| console := console w'; reported := reported w';
            outgoing := outgoing w'; res := res w'; uncaught := Some e |})
    end.

Definition start (m : Http.Method) : World :=
  {| console := []; reported := []; outgoing := []; res := Res.fresh m;
     uncaught := None |}.

(** The state a computation leaves. *)
Definition exec {A} (c : M A) (env : Env) (w : World) : World := snd (c env w).

End Effects.

Declare Scope js_scope.
Delimit Scope js_scope with js.
Notation "x <- c ;; k" := (Effects.bind c (fun x => k))
(at level 61, c at next level, right associativity) : js_scope.
Notation "c ;; k" := (Effects.bind c (fun _ => k))
(at level 61, right associativity) : js_scope.

Local Open Scope js_scope.

(* ------------------------------------------------------------------ *)
(** ** Express: the [res] helpers and the router *)

Module Express.
Import Effects.

(** [res.status(code)] *)
Definition res_status (code : nat) : M unit := onRes (Res.status code).

(** [res.json(obj)] and [res.send(text)] write the head and the whole
    body at once; on a response whose head is already out they throw. *)
Definition res_end_with (p : Http.Payload) : M unit :=
  r <- getRes ;;
  if Res.headersSent r then throw Http.ERR_HTTP_HEADERS_SENT
  else onRes (fun r => Res.end_ (Res.write p r)).

Definition res_json (obj : Http.Json) : M unit := res_end_with (Http.Encoded obj).

Definition res_send (p : Http.Payload) : M unit := res_end_with p.

Definition res_setHeader (name value : string) : M unit :=
  r <- getRes ;;
  if Res.headersSent r then throw Http.ERR_HTTP_HEADERS_SENT
  else onRes (Res.setHeader name value).

(** [req.pipe(dest)] where [dest] is not a stream.  [pipe] puts its
    listeners on [req] before it touches [dest]; the one for the end of
    the request calls [dest.end()].  When the request has been read that
    call throws, in a listener: nothing catches it. *)
Definition req_pipe_non_stream : M unit := listener (throw Http.TypeError).

(** A path given to [app.get] is compiled to a regular expression that
    ignores case and tolerates one trailing slash, and is tested against
    the path name of the request. *)
Definition path_test (path pathname : string) : bool :=
  let p := JsString.toLowerCase pathname in
  let r := JsString.toLowerCase path in
  if JsString.endsWithSlash path
  then String.eqb p r || String.eqb (p ++ "/") r
  else String.eqb p r || String.eqb p (r ++ "/").

(** [app.get] serves GET, and HEAD for want of a route of its own. *)
Definition get_accepts (m : Http.Method) : bool :=
  match m with
  | Http.GET | Http.HEAD => true
  | _ => false
  end.

End Express.

(* ------------------------------------------------------------------ *)
(** ** The cors package *)

Module Cors.
Import Effects.

Record Options := {
  origin : string;
  methods : list string;
  allowedHeaders : list string
}.

Fixpoint join (sep : string) (l : list string) : string :=
  match l with
  | [] => ""
  | [x] => x
  | x :: r => x ++ sep ++ join sep r
  end.

(** [cors(options)] as a middleware: every response gets the allowed
    origin; a preflight (OPTIONS) is answered on the spot with 204 and
    goes no further ([true] in the result: the request is done). *)
Definition cors (o : Options) (req : Req.t) : M bool :=
  Express.res_setHeader "Access-Control-Allow-Origin" (origin o) ;;
  match Req.method req with
  | Http.OPTIONS =>
      Express.res_setHeader "Access-Control-Allow-Methods" (join "," (methods o)) ;;
      Express.res_setHeader "Access-Control-Allow-Headers" (join "," (allowedHeaders o)) ;;
      Express.res_status 204 ;;
      Express.res_setHeader "Content-Length" "0" ;;
      onRes Res.end_ ;;
      ret true
  | _ => ret false
  end.

End Cors.

(* ------------------------------------------------------------------ *)
(** ** The proxy middleware

  What [createProxyMiddleware(options)] does with one request, for the
  options the source uses ([target], [changeOrigin], [pathRewrite],
  [onProxyRes], [onError]) and for three it leaves undefined ([timeout],
  [proxyTimeout], [selfHandleResponse]).  No [agent] is configured
  either, which decides the [connection] header of the outgoing
  request. *)

Module Proxy.
Import Effects.

Record Options := {
  target : string;
  changeOrigin : bool;
  pathRewrite : list (string * string);
  onProxyRes : option (ProxyRes.t -> ProxyRes.t);
  onError : option (Http.JsError -> Req.t -> M unit);
  timeout : option nat;
  proxyTimeout : option nat;
  selfHandleResponse : bool
}.

(** An options literal with the five properties the source writes. *)
Definition literal target changeOrigin pathRewrite onProxyRes onError : Options :=
  {| target := target; changeOrigin := changeOrigin;
     pathRewrite := pathRewrite; onProxyRes := onProxyRes; onError := onError;
     timeout := None; proxyTimeout := None; selfHandleResponse := false |}.

(** *** Path rewriting

    Each key of [pathRewrite] is the source of a [RegExp].  The keys of
    this program are a caret followed by characters that stand for
    themselves (lemma [rewrite_keys_literal]), so a key either anchors a
    literal at the start of the path or looks for it anywhere. *)
Inductive Pattern :=
| Anchored (lit : string)
| Anywhere (lit : string).

Definition compile (key : string) : Pattern :=
  match key with
  | String "^" lit => Anchored lit
  | _ => Anywhere key
  end.

Definition test (p : Pattern) (path : string) : bool :=
  match p with
  | Anchored lit => JsString.startsWith lit path
  | Anywhere lit =>
      match JsString.indexOf lit path with Some _ => true | None => false end
  end.

Definition replace (p : Pattern) (value path : string) : string :=
  match p with
  | Anchored lit =>
      if JsString.startsWith lit path
      then value ++ JsString.drop (String.length lit) path
      else path
  | Anywhere lit =>
      match JsString.indexOf lit path with
      | Some i =>
          JsString.take i path ++ value
          ++ JsString.drop (i + String.length lit) path
      | None => path
      end
  end.

(** The first rule whose pattern matches rewrites the path; the query
    string is part of the string being rewritten. *)
Fixpoint rewritePath (rules : list (string * string)) (path : string) : string :=
  match rules with
  | [] => path
  | (key, value) :: r =>
      if test (compile key) path
      then replace (compile key) value path
      else rewritePath r path
  end.

(** *** The outgoing request *)

(** Host part of an [http://host/path] target. *)
Definition host (target : string) : string :=
  let rest := if JsString.startsWith "http://" target
              then JsString.drop 7 target else target in
  match JsString.indexOf "/" rest with
  | Some i => JsString.take i rest
  | None => rest
  end.

(** The test [/(^|,)\s*upgrade\s*($|,)/i] on a [connection] header: one
    of its comma-separated items is the word [upgrade]. *)
Definition upgradeHeader (value : string) : bool :=
  existsb (fun item =>
             String.eqb (JsString.toLowerCase (JsString.trim item)) "upgrade")
          (JsString.split "," value).

(** Without an agent the [connection] entry becomes [close], unless the
    client asks for an upgrade. *)
Definition closeConnection (headers : JsObject.t) : JsObject.t :=
  match JsObject.get "connection" headers with
  | Some c => if upgradeHeader c then headers
              else JsObject.set "connection" "close" headers
  | None => JsObject.set "connection" "close" headers
  end.

(** The headers of the inbound request are copied, [connection] is
    settled, and with [changeOrigin] the [host] entry becomes the
    target's host. *)
Definition outgoingHeaders (o : Options) (req : Req.t) : JsObject.t :=
  let headers := closeConnection (Req.headers req) in
  if changeOrigin o
  then JsObject.set "host" (host (target o)) headers
  else headers.

Definition setupOutgoing (o : Options) (req : Req.t) : Outgoing.t :=
  {| Outgoing.target := target o;
     Outgoing.method := Req.method req;
     Outgoing.url := rewritePath (pathRewrite o) (Req.url req);
     Outgoing.headers := outgoingHeaders o req |}.

(** *** The upstream's answer *)

(** Status and headers of [proxyRes] are copied to [res], header by
    header in the order of the object's keys, unless the head of [res]
    is already out or the options ask to leave the response alone
    ([selfHandleResponse]). *)
Definition writeHeaders (h : JsObject.t) (r : Res.t) : Res.t :=
  fold_left (fun r kv => Res.setHeader (fst kv) (snd kv) r) h r.

Definition headed (p : ProxyRes.t) (r : Res.t) : Res.t :=
  writeHeaders (ProxyRes.headers p) (Res.status (ProxyRes.statusCode p) r).

Definition writeHead (p : ProxyRes.t) : M unit :=
  r <- getRes ;;
  if Res.headersSent r then ret tt else onRes (headed p).

(** [proxyRes.pipe(res)]: every chunk is written to [res] when it
    arrives. *)
Definition piped (chunks : list Http.chunk) (r : Res.t) : Res.t :=
  fold_left (fun r c => Res.write (Http.Buffer c) r) chunks r.

Definition pipe (chunks : list Http.chunk) : M unit := onRes (piped chunks).

(** The [proxyRes] event runs [onProxyRes] first. *)
Definition proxyRes (o : Options) (head : ProxyRes.t) : ProxyRes.t :=
  match onProxyRes o with
  | Some f => f head
  | None => head
  end.

(** [a || b] on header values: the empty string counts as absent. *)
Definition orElse (a : option string) (b : string) : string :=
  match a with
  | Some EmptyString | None => b
  | Some s => s
  end.

(** Before the headers are copied the proxy adjusts two of them to the
    client's protocol version.  For HTTP/1.0 [transfer-encoding] is
    deleted and [connection] follows the client's, or is [close]; for
    HTTP/1.1 an answer without [connection] gets the client's, or
    [keep-alive]. *)
Definition removeChunked (req : Req.t) (p : ProxyRes.t) : ProxyRes.t :=
  if String.eqb (Req.httpVersion req) "1.0"
  then {| ProxyRes.statusCode := ProxyRes.statusCode p;
          ProxyRes.headers :=
            JsObject.delete "transfer-encoding" (ProxyRes.headers p) |}
  else p.

Definition setConnection (req : Req.t) (p : ProxyRes.t) : ProxyRes.t :=
  let wanted := JsObject.get "connection" (Req.headers req) in
  if String.eqb (Req.httpVersion req) "1.0"
  then ProxyRes.assign "connection" (orElse wanted "close") p
  else if negb (String.eqb (Req.httpVersion req) "2.0")
          && String.eqb (orElse (JsObject.get "connection" (ProxyRes.headers p)) "") ""
  then ProxyRes.assign "connection" (orElse wanted "keep-alive") p
  else p.

Definition webOutgoing (req : Req.t) (p : ProxyRes.t) : ProxyRes.t :=
  setConnection req (removeChunked req p).

Definition relay (o : Options) (req : Req.t) (head : ProxyRes.t)
    (chunks : list Http.chunk) : M unit :=
  (if selfHandleResponse o then ret tt
   else writeHead (webOutgoing req (proxyRes o head))) ;;
  r <- getRes ;;
  if Res.finished r || selfHandleResponse o then ret tt else pipe chunks.

(** *** Failure *)

(** The package's own handler, used when the options have no [onError]:
    status by error code, then a line of text. *)
Definition defaultErrorHandler (err : Http.JsError) (req : Req.t) : M unit :=
  r <- getRes ;;
  (if Res.headersSent r then ret tt
   else match err with
        | Http.NetworkError Http.EHOSTUNREACH => Express.res_status 500
        | Http.NetworkError _ => Express.res_status 504
        | _ => Express.res_status 500
        end) ;;
  onRes (fun r => Res.end_ (Res.write (Http.Text
    ("Error occurred while trying to proxy: "
     ++ match JsObject.get "host" (Req.headers req) with
        | Some h => h | None => "undefined" end
     ++ Req.url req)) r)).

(** The error handlers receive the request with its rewritten [url]. *)
Definition rewritten (o : Options) (req : Req.t) : Req.t :=
  {| Req.method := Req.method req;
     Req.url := rewritePath (pathRewrite o) (Req.url req);
     Req.httpVersion := Req.httpVersion req;
     Req.headers := Req.headers req |}.

(** The listeners of the proxy's [error] event, in the order of their
    registration: the error handler, then the package's report. *)
Definition fail (o : Options) (err : Http.JsError) (req : Req.t) : M unit :=
  listener (match onError o with
            | Some f => f err (rewritten o req)
            | None => defaultErrorHandler err (rewritten o req)
            end ;;
            logError err).

(** *** One exchange *)
Definition createProxyMiddleware (o : Options) (req : Req.t) : M unit :=
  up <- request (setupOutgoing o req) ;;
  match up with
  | Unreachable code => fail o (Http.NetworkError code) req
  | Hangs =>
      match proxyTimeout o, timeout o with
      | Some _, _ => fail o (Http.NetworkError Http.ECONNRESET) req
      | None, Some _ => onRes Res.destroy
      | None, None => ret tt
      end
  | Streaming head chunks => relay o req head chunks
  | Responds head chunks =>
      relay o req head chunks ;;
      if selfHandleResponse o then ret tt else onRes Res.end_
  end.

End Proxy.

(* ------------------------------------------------------------------ *)
(** ** An application: middleware, route table, process *)

Module App.
Import Effects.

(** What a route was registered with.
    - [Callback f]: a function [(req, res) => ...] of the source;
    - [Middleware o]: [createProxyMiddleware(o)] itself;
    - [Piped o next]: the wrapper of the earlier version's stream route,
      [(req, res) => req.pipe(createProxyMiddleware(o)(req, res, next))],
      which hands the middleware's return value, never a stream, to
      [req.pipe].  The process goes down on such a request before
      anything is answered; what the middleware had begun by then goes
      down with it and is not described. *)
Inductive Handler :=
| Callback (f : Req.t -> M unit)
| Middleware (o : Proxy.Options)
| Piped (o : Proxy.Options) (next : option Http.JsError -> M unit).

Record Route := { path : string; handler : Handler }.

(** [app.get(path, handler)] *)
Definition get (path : string) (handler : Handler) : Route :=
  {| path := path; handler := handler |}.

(** The application after the [app.use] and [app.get] calls.  Of the
    three [app.use] lines, [express.json()] acts on request bodies and
    [express.static] on the files of a [public] directory; requests here
    have no body and the sources contain no such directory. *)
Record t := { corsOptions : Cors.Options; routes : list Route }.

Definition options (h : Handler) : option Proxy.Options :=
  match h with
  | Callback _ => None
  | Middleware o | Piped o _ => Some o
  end.

Definition invoke (h : Handler) : Req.t -> M unit :=
  match h with
  | Callback f => f
  | Middleware o => Proxy.createProxyMiddleware o
  | Piped _ _ => fun _ => Express.req_pipe_non_stream
  end.

(** First registered route that accepts the method and the path. *)
Fixpoint lookup (rs : list Route) (m : Http.Method) (pathname : string)
  : option Route :=
  match rs with
  | [] => None
  | r :: rest =>
      if Express.get_accepts m && Express.path_test (path r) pathname
      then Some r
      else lookup rest m pathname
  end.

(** Express's last resort, for a request no route took (404) and for an
    exception thrown by a route's function (500). *)
Definition finalhandler (code : nat) : M unit :=
  r <- getRes ;;
  if Res.headersSent r then onRes Res.destroy
  else Express.res_status code ;; Express.res_send Http.ErrorPage.

Definition catching (c : M unit) : M unit :=
  fun env w =>
    match c env w with
    | (Normal _, w') => (Normal tt, w')
    | (Throw _, w') => finalhandler 500 env w'
    end.

(** One request through the stack: [cors] first, then the route the
    router picks on method and path, then Express's last resort. *)
Definition handle (app : t) (req : Req.t) : M unit :=
  done <- Cors.cors (corsOptions app) req ;;
  if done then ret tt
  else match lookup (routes app) (Req.method req)
               (JsString.pathname (Req.url req)) with
       | Some route => catching (invoke (handler route) req)
       | None => finalhandler 404
       end.

(** *** The running process

    [stderr] collects the lines of the source's own [console.error]
    calls, [hpm] the errors the proxy package has reported with a line
    of its own. *)

Record Process := {
  table : t;
  alive : bool;
  stderr : list LogLine;
  hpm : list Http.JsError
}.

(** [app.listen(PORT, ...)] *)
Definition listen (app : t) : Process :=
  {| table := app; alive := true; stderr := []; hpm := [] |}.

(** What one request caused: the requests sent upstream and the state of
    the response. *)
Record Exchange := { sent : list Outgoing.t; response : Res.t }.

Definition settled (w : World) : bool :=
  match uncaught w with None => true | Some _ => false end.

(** Serving one request.  A process that is down answers nothing; an
    uncaught exception brings the process down, and the request during
    which that happens gets no answer either. *)
Definition serve (env : Env) (req : Req.t) (p : Process)
  : option (Process * option Exchange) :=
  if alive p then
    let w := exec (handle (table p) req) env (start (Req.method req)) in
    Some ({| table := table p; alive := settled w;
             stderr := (stderr p ++ console w)%list;
             hpm := (hpm p ++ reported w)%list |},
          if settled w
          then Some {| sent := outgoing w; response := res w |}
          else None)
  else Some (p, None).

Fixpoint run (inputs : list (Env * Req.t)) (p : Process)
  : option (Process * list (option Exchange)) :=
  match inputs with
  | [] => Some (p, [])
  | (env, req) :: rest =>
      match serve env req p with
      | Some (p', x) =>
          match run rest p' with
          | Some (p'', xs) => Some (p'', x :: xs)
          | None => None
          end
      | None => None
      end
  end.

End App.

(* ------------------------------------------------------------------ *)
(** ** src/index.js *)

Module Index.
Import Effects Express Http.

Definition PORT : nat := 3000.

Definition ESP_CAR_IP : string := "192.168.4.1".
Definition ESP_CAM_IP : string := "192.168.225.143".

Definition corsOptions : Cors.Options :=
  {| Cors.origin := "*";
     Cors.methods := ["GET"; "POST"; "OPTIONS"];
     Cors.allowedHeaders := ["Content-Type"; "User-Agent"] |}.

(** [app.get('/api/status', ...)] *)
Definition status (req : Req.t) : M unit :=
  timestamp <- toISOString ;;
  res_json (JObject [("status", JString "OK");
                     ("timestamp", JString timestamp);
                     ("car_ip", JString ESP_CAR_IP);
                     ("cam_ip", JString ESP_CAM_IP)]).

(** [app.get('/api/sensor', createProxyMiddleware({...}))] *)
Definition sensor : Proxy.Options :=
  Proxy.literal
    ("http://" ++ ESP_CAR_IP)
    true
    [("^/api/sensor", "/sensor")]
    (Some (fun proxyRes =>
       ProxyRes.assign "Access-Control-Allow-Origin" "*" proxyRes))
    (Some (fun err req =>
       console_error "Sensor proxy error:" err ;;
       res_status 500 ;;
       res_json (JObject [("error", JString "Proxy error for sensor")]))).

Definition motorCommands : list string :=
  ["forward"; "backward"; "left"; "right"; "stop"].

(** The options literal in [motorCommands.forEach(command => ...)]. *)
Definition motorProxy (command : string) : Proxy.Options :=
  (Proxy.literal
    ("http://" ++ ESP_CAR_IP)
    true
    [("^/api/" ++ command, "/" ++ command)]
    (Some (fun proxyRes =>
       ProxyRes.assign "Access-Control-Allow-Origin" "*" proxyRes))
    (Some (fun err req =>
       console_error (command ++ " proxy error:") err ;;
       res_status 500 ;;
       res_json (JObject [("error", JString ("Proxy error for " ++ command))])))).

Definition valveCommands : list string :=
  ["valve1_on"; "valve1_off"; "valve2_on"; "valve2_off"].

(** The options literal in [valveCommands.forEach(command => ...)]. *)
Definition valveProxy (command : string) : Proxy.Options :=
  (Proxy.literal
    ("http://" ++ ESP_CAR_IP)
    true
    [("^/api/" ++ command, "/" ++ command)]
    (Some (fun proxyRes =>
       ProxyRes.assign "Access-Control-Allow-Origin" "*" proxyRes))
    (Some (fun err req =>
       console_error (command ++ " proxy error:") err ;;
       res_status 500 ;;
       res_json (JObject [("error", JString ("Proxy error for " ++ command))])))).

(** [app.get('/api/stream', createProxyMiddleware({...}))] *)
Definition stream : Proxy.Options :=
  Proxy.literal
    ("http://" ++ ESP_CAM_IP)
    true
    [("^/api/stream", "/stream")]
    (Some (fun proxyRes =>
       let proxyRes := ProxyRes.assign "Content-Type"
         "multipart/x-mixed-replace; boundary=123456789000000000000987654321"
         proxyRes in
       let proxyRes := ProxyRes.assign "Access-Control-Allow-Origin" "*" proxyRes in
       let proxyRes := ProxyRes.assign "Cache-Control"
         "no-cache, no-store, must-revalidate" proxyRes in
       let proxyRes := ProxyRes.assign "Pragma" "no-cache" proxyRes in
       ProxyRes.assign "Expires" "0" proxyRes))
    (Some (fun err req =>
       console_error "Stream proxy error:" err ;;
       res_status 500 ;;
       res_send (Text "Stream unavailable - Check CAM IP connectivity"))).

(** [app.get('/', ...)] *)
Definition root (req : Req.t) : M unit :=
  res_send (Page true PORT ESP_CAR_IP ESP_CAM_IP).

Definition app : App.t :=
  {| App.corsOptions := corsOptions;
     App.routes :=
       ([App.get "/api/status" (App.Callback status);
         App.get "/api/sensor" (App.Middleware sensor)]
        ++ map (fun command =>
                  App.get ("/api/" ++ command)
                    (App.Middleware (motorProxy command))) motorCommands
        ++ map (fun command =>
                  App.get ("/api/" ++ command)
                    (App.Middleware (valveProxy command))) valveCommands
        ++ [App.get "/api/stream" (App.Middleware stream);
            App.get "/" (App.Callback root)])%list |}.

End Index.

(* ------------------------------------------------------------------ *)
(** ** src/unnamed/part_000, the earlier version *)

Module Part000.
Import Effects Express Http.

Definition PORT : nat := 3000.

Definition ESP_CAR_IP : string := "192.168.4.1".
Definition ESP_CAM_IP : string := "192.168.1.100".

Definition corsOptions : Cors.Options :=
  {| Cors.origin := "*";
     Cors.methods := ["GET"; "POST"; "OPTIONS"];
     Cors.allowedHeaders := ["Content-Type"; "User-Agent"] |}.

Definition status (req : Req.t) : M unit :=
  timestamp <- toISOString ;;
  res_json (JObject [("status", JString "OK");
                     ("timestamp", JString timestamp);
                     ("car_ip", JString ESP_CAR_IP);
                     ("cam_ip", JString ESP_CAM_IP)]).

Definition sensor : Proxy.Options :=
  Proxy.literal
    ("http://" ++ ESP_CAR_IP)
    true
    [("^/api/sensor", "/sensor")]
    None
    (Some (fun err req =>
       res_status 500 ;;
       res_json (JObject [("error", JString "Proxy error for sensor")]))).

Definition motorCommands : list string :=
  ["forward"; "backward"; "left"; "right"; "stop"].

Definition motorProxy (command : string) : Proxy.Options :=
  (Proxy.literal
    ("http://" ++ ESP_CAR_IP)
    true
    [("^/api/" ++ command, "/" ++ command)]
    (Some (fun proxyRes =>
       ProxyRes.assign "Access-Control-Allow-Origin" "*" proxyRes))
    (Some (fun err req =>
       res_status 500 ;;
       res_json (JObject [("error", JString ("Proxy error for " ++ command))])))).

Definition valveCommands : list string :=
  ["valve1_on"; "valve1_off"; "valve2_on"; "valve2_off"].

Definition valveProxy (command : string) : Proxy.Options :=
  (Proxy.literal
    ("http://" ++ ESP_CAR_IP)
    true
    [("^/api/" ++ command, "/" ++ command)]
    (Some (fun proxyRes =>
       ProxyRes.assign "Access-Control-Allow-Origin" "*" proxyRes))
    (Some (fun err req =>
       res_status 500 ;;
       res_json (JObject [("error", JString ("Proxy error for " ++ command))])))).

(** The options literal inside the stream route's function; [proxyUrl]
    is the target with its [/stream] path. *)
Definition proxyUrl : string := "http://" ++ ESP_CAM_IP ++ "/stream".

Definition stream : Proxy.Options :=
  Proxy.literal
    proxyUrl
    true
    [("^/api/stream", "/stream")]
    (Some (fun proxyRes =>
       let proxyRes := ProxyRes.assign "Content-Type"
         "multipart/x-mixed-replace; boundary=123456789000000000000987654321"
         proxyRes in
       let proxyRes := ProxyRes.assign "Access-Control-Allow-Origin" "*" proxyRes in
       ProxyRes.assign "Cache-Control" "no-cache" proxyRes))
    None.

(** The function passed as [next] in that route: [(err) => { if (err) ... }]. *)
Definition streamNext (err : option JsError) : M unit :=
  match err with
  | Some e =>
      console_error "Stream proxy error:" e ;;
      res_status 500 ;;
      res_send (Text "Stream unavailable")
  | None => ret tt
  end.

Definition root (req : Req.t) : M unit :=
  res_send (Page false PORT ESP_CAR_IP ESP_CAM_IP).

Definition app : App.t :=
  {| App.corsOptions := corsOptions;
     App.routes :=
       ([App.get "/api/status" (App.Callback status);
         App.get "/api/sensor" (App.Middleware sensor)]
        ++ map (fun command =>
                  App.get ("/api/" ++ command)
                    (App.Middleware (motorProxy command))) motorCommands
        ++ map (fun command =>
                  App.get ("/api/" ++ command)
                    (App.Middleware (valveProxy command))) valveCommands
        ++ [App.get "/api/stream" (App.Piped stream streamNext);
            App.get "/" (App.Callback root)])%list |}.

End Part000.

(* ------------------------------------------------------------------ *)
(** ** The gateway in its two versions *)

Module Gateway.

Inductive Version := Current | Earlier.

Definition app (v : Version) : App.t :=
  match v with
  | Current => Index.app
  | Earlier => Part000.app
  end.

Definition ESP_CAR_IP (v : Version) : string :=
  match v with
  | Current => Index.ESP_CAR_IP
  | Earlier => Part000.ESP_CAR_IP
  end.

Definition ESP_CAM_IP (v : Version) : string :=
  match v with
  | Current => Index.ESP_CAM_IP
  | Earlier => Part000.ESP_CAM_IP
  end.

(** The two upstream devices: the car's controller and the camera. *)
Definition controller (v : Version) : string := "http://" ++ ESP_CAR_IP v.
Definition camera (v : Version) : string := "http://" ++ ESP_CAM_IP v.

(** The command routes: motor commands, then valve commands. *)
Definition commands (v : Version) : list string :=
  match v with
  | Current => (Index.motorCommands ++ Index.valveCommands)%list
  | Earlier => (Part000.motorCommands ++ Part000.valveCommands)%list
  end.

(** The proxy options of the route of command [c]; the motor and the
    valve loop build the same literal. *)
Definition commandProxy (v : Version) (c : string) : Proxy.Options :=
  match v with
  | Current => Index.motorProxy c
  | Earlier => Part000.motorProxy c
  end.

(** A process of version [v] that is up. *)
Definition running (v : Version) (p : App.Process) : Prop :=
  App.table p = app v /\ App.alive p = true.

(** The options of the routes that go through the proxy. *)
Definition proxied (a : App.t) : list Proxy.Options :=
  flat_map (fun r => match App.options (App.handler r) with
                     | Some o => [o]
                     | None => []
                     end) (App.routes a).

Definition publicPaths (a : App.t) : list string :=
  map App.path (App.routes a).

(** An upstream that has answered: completely ([closed]), or with the
    head and some chunks so far. *)
Definition answer (closed : bool) (head : ProxyRes.t) (chunks : list Http.chunk)
  : Upstream :=
  if closed then Responds head chunks else Streaming head chunks.

(** The camera has [chunks] to send and has sent the first [k] of
    them: an answer in progress while some are left, a complete one
    after the last. *)
Definition sentSoFar (head : ProxyRes.t) (chunks : list Http.chunk) (k : nat)
  : Upstream :=
  answer (negb (k <? length chunks)%nat) head (firstn k chunks).

(** *** The proxied routes by name

    The routes [/api/<name>] whose handler is a proxy middleware, with
    the options each was created from and the device it talks to. *)
Definition proxiedNames (v : Version) : list string :=
  match v with
  | Current => ("sensor" :: commands Current ++ ["stream"])%list
  | Earlier => "sensor" :: commands Earlier
  end.

Definition proxyFor (v : Version) (name : string) : Proxy.Options :=
  if String.eqb name "sensor"
  then match v with Current => Index.sensor | Earlier => Part000.sensor end
  else if String.eqb name "stream"
  then match v with Current => Index.stream | Earlier => Part000.stream end
  else commandProxy v name.

Definition upstreamOf (v : Version) (name : string) : string :=
  if String.eqb name "stream" then camera v else controller v.

(** Options that bound both the inbound socket's idle time ([timeout])
    and the wait for the upstream ([proxyTimeout]). *)
Definition boundedTimeouts (o : Proxy.Options) : Prop :=
  (exists t, Proxy.timeout o = Some t) /\
  (exists t, Proxy.proxyTimeout o = Some t).

End Gateway.

(* ------------------------------------------------------------------ *)
(** ** One proxied exchange in closed form

  The state a proxied exchange ends in, written out by the behaviour of
  the upstream.  The lemmas below show that running the middleware
  yields exactly this. *)

Module Outcome.
Import Effects Gateway.

(** The world a route's handler starts in: CORS has set its header. *)
Definition afterCors (a : App.t) (m : Http.Method) : World :=
  {| console := []; reported := []; outgoing := [];
     res := Res.setHeader "Access-Control-Allow-Origin"
              (Cors.origin (App.corsOptions a)) (Res.fresh m);
     uncaught := None |}.

(** The answer to a request no route takes. *)
Definition notFound (a : App.t) (m : Http.Method) : Res.t :=
  Res.end_ (Res.write Http.ErrorPage (Res.status 404 (res (afterCors a m)))).

(** An [onError] function that logs [msg] (if any), then answers 500
    with [body]. *)
Definition replies500 (f : Http.JsError -> Req.t -> M unit)
    (msg : option string) (body : Http.Payload) : Prop :=
  forall err req env w,
    Res.headersSent (res w) = false ->
    f err req env w
    = (Normal tt,
       {| console := (console w
                      ++ match msg with Some m => [(m, err)] | None => [] end)%list;
          reported := reported w;
          outgoing := outgoing w;
          res := Res.end_ (Res.write body (Res.status 500 (res w)));
          uncaught := uncaught w |}).

(** The head the proxy copies to [res]: the upstream's, after
    [onProxyRes] and the adjustment to the client's protocol version. *)
Definition relayedHead (o : Proxy.Options) (req : Req.t) (head : ProxyRes.t)
  : ProxyRes.t :=
  Proxy.webOutgoing req (Proxy.proxyRes o head).

(** What [res] becomes, by the behaviour of the upstream. *)
Definition settledRes (o : Proxy.Options) (req : Req.t) (body : Http.Payload)
    (up : Upstream) (r : Res.t) : Res.t :=
  match up with
  | Unreachable _ => Res.end_ (Res.write body (Res.status 500 r))
  | Hangs => r
  | Streaming head chunks =>
      Proxy.piped chunks (Proxy.headed (relayedHead o req head) r)
  | Responds head chunks =>
      Res.end_ (Proxy.piped chunks (Proxy.headed (relayedHead o req head) r))
  end.

(** What the proxy package reports. *)
Definition settledReports (up : Upstream) : list Http.JsError :=
  match up with
  | Unreachable code => [Http.NetworkError code]
  | _ => []
  end.

Definition settledLog (msg : option string) (up : Upstream) : list LogLine :=
  match up, msg with
  | Unreachable code, Some m => [(m, Http.NetworkError code)]
  | _, _ => []
  end.

(** What the [onError] of route [name] logs and sends. *)
Definition failureLog (v : Version) (name : string) : option string :=
  match v with
  | Earlier => None
  | Current =>
      Some (if String.eqb name "sensor" then "Sensor proxy error:"
            else if String.eqb name "stream" then "Stream proxy error:"
            else name ++ " proxy error:")
  end.

Definition failureBody (name : string) : Http.Payload :=
  if String.eqb name "stream"
  then Http.Text "Stream unavailable - Check CAM IP connectivity"
  else Http.Encoded
         (Http.JObject [("error", Http.JString ("Proxy error for " ++ name))]).

End Outcome.

(* ------------------------------------------------------------------ *)
(** ** Sample inputs *)

Module Samples.
Import Effects Gateway.

(** A network on which every upstream behaves as [up]. *)
Definition network (up : Upstream) : Env :=
  {| now := "2025-01-01T00:00:00.000Z"; net := fun _ => up |}.

Definition browser : JsObject.t :=
  [("host", "192.168.4.2:3000"); ("user-agent", "Dart/3.0")].

Definition get (url : string) : Req.t :=
  {| Req.method := Http.GET; Req.url := url; Req.httpVersion := "1.1";
     Req.headers := browser |}.

Definition jpeg : ProxyRes.t :=
  {| ProxyRes.statusCode := 200;
     ProxyRes.headers := [("content-type", "image/jpeg");
                          ("access-control-allow-origin", "http://192.168.4.1")] |}.

Definition frames : list Http.chunk :=
  [[Byte.xff; Byte.xd8]; [Byte.x00]; [Byte.xff; Byte.xd9]].

(** Three requests in a row: a command while the controller is down, a
    health check, a stream request answered by the camera. *)
Definition session : list (Env * Req.t) :=
  [(network (Unreachable Http.ECONNREFUSED), get "/api/forward");
   (network Hangs, get "/api/status");
   (network (Responds jpeg frames), get "/api/stream")].

Definition served : App.Process * list (option App.Exchange) :=
  match App.run session (App.listen Index.app) with
  | Some r => r
  | None => (App.listen Index.app, [])
  end.

End Samples.

(* ------------------------------------------------------------------ *)
(** ** What Node guarantees about parsed headers *)

Module Platform.
Import Effects Gateway.

(** Headers as Node's parser hands them over: every name in lower case
    and every name once. *)
Definition parsed (h : JsObject.t) : Prop :=
  JsObject.lowerCaseKeys h = true /\ NoDup (JsObject.keys h).

(** A network on which every answer comes with parsed headers. *)
Definition parsedAnswers (env : Env) : Prop :=
  forall up closed head chunks,
    net env up = answer closed head chunks ->
    parsed (ProxyRes.headers head).

(** The names of the headers an [onProxyRes] of [src/index.js]'s stream
    route assigns, in lower case. *)
Definition streamOverrides : list string :=
  ["content-type"; "access-control-allow-origin"; "cache-control";
   "pragma"; "expires"].

End Platform.

(** More sample inputs. *)
Module Cases.
Import Effects Gateway.

Definition request (m : Http.Method) (url : string) : Req.t :=
  {| Req.method := m; Req.url := url; Req.httpVersion := "1.1";
     Req.headers := Samples.browser |}.

(** A sensor reading with its own CORS header and content type. *)
Definition reading : ProxyRes.t :=
  {| ProxyRes.statusCode := 200;
     ProxyRes.headers := [("content-type", "application/json");
                          ("access-control-allow-origin", "http://192.168.4.1");
                          ("x-uptime", "42")] |}.

Definition json : list Http.chunk := [[Byte.x7b; Byte.x7d]].

(** A sequence of requests of every kind: a preflight, an unknown path, a
    command while the controller is down, a POST, a sensor reading, a
    stream request to a camera that never answers, the root page. *)
Definition session : list (Env * Req.t) :=
  [(Samples.network Hangs, request Http.OPTIONS "/api/forward");
   (Samples.network Hangs, request Http.GET "/api/unknown");
   (Samples.network (Unreachable Http.EHOSTUNREACH), request Http.GET "/api/stop");
   (Samples.network Hangs, request Http.POST "/api/stop");
   (Samples.network (Responds reading json), request Http.GET "/API/Sensor/");
   (Samples.network Hangs, request Http.HEAD "/api/stream");
   (Samples.network Hangs, request Http.GET "/?x=1")].

Definition served : App.Process * list (option App.Exchange) :=
  match App.run session (App.listen Index.app) with
  | Some r => r
  | None => (App.listen Index.app, [])
  end.

End Cases.

(* ------------------------------------------------------------------ *)
(** ** Facts about strings, objects and the response *)

Section StringFacts.
Import JsString.










End StringFacts.

Section RewriteFacts.



End RewriteFacts.

Section ObjectFacts.
Import JsObject.

Lemma get_app_last (k v : string) (o : t) :
  hasOwnProperty k o = false -> get k (o ++ [(k, v)])%list = Some v.
Proof.
  induction o as [|[k' v'] o IH]; simpl.
  - now rewrite String.eqb_refl.
  - destruct (String.eqb k' k); simpl; [discriminate|exact IH].
Qed.

Lemma get_map_set (k v : string) (o : t) :
  hasOwnProperty k o = true ->
  get k (map (fun kv => if String.eqb (fst kv) k then (k, v) else kv) o) = Some v.
Proof.
  induction o as [|[k' v'] o IH]; simpl; [discriminate|].
  destruct (String.eqb k' k) eqn:E; simpl.
  - now rewrite String.eqb_refl.
  - rewrite E. exact IH.
Qed.

Lemma get_set_same (k v : string) (o : t) : get k (set k v o) = Some v.
Proof.
  unfold set. destruct (hasOwnProperty k o) eqn:E.
  - now apply get_map_set.
  - now apply get_app_last.
Qed.

Lemma get_set_other (k k' v : string) (o : t) :
  k <> k' -> get k (set k' v o) = get k o.
Proof.
  intros Hne. unfold set. destruct (hasOwnProperty k' o).
  - induction o as [|[a b] o IH]; simpl; [reflexivity|].
    destruct (String.eqb a k') eqn:E; simpl.
    + apply String.eqb_eq in E. subst a.
      destruct (String.eqb k' k) eqn:E'.
      * apply String.eqb_eq in E'. congruence.
      * exact IH.
    + destruct (String.eqb a k); [reflexivity|exact IH].
  - induction o as [|[a b] o IH]; simpl.
    + destruct (String.eqb k' k) eqn:E'; [|reflexivity].
      apply String.eqb_eq in E'. congruence.
    + destruct (String.eqb a k); [reflexivity|exact IH].
Qed.

(** After [o[k] = v] every entry under [k] holds [v]. *)
Lemma set_all (k v x : string) (o : t) :
  In (k, x) (set k v o) -> x = v.
Proof.
  unfold set. destruct (hasOwnProperty k o) eqn:E.
  - intros H. apply in_map_iff in H. destruct H as [[a b] [H _]].
    simpl in H. destruct (String.eqb a k) eqn:E'.
    + congruence.
    + injection H as -> ->. now rewrite String.eqb_refl in E'.
  - intros H. apply in_app_or in H. destruct H as [H | [H | []]].
    + exfalso. unfold hasOwnProperty in E.
      assert (existsb (fun kv => String.eqb (fst kv) k) o = true) as C.
      { apply existsb_exists. exists (k, x). split; [exact H|].
        simpl. apply String.eqb_refl. }
      congruence.
    + congruence.
Qed.

(** Assignment keeps the keys of the other entries. *)
Lemma set_keys (k v a b : string) (o : t) :
  In (a, b) (set k v o) -> a = k \/ In (a, b) o.
Proof.
  unfold set. destruct (hasOwnProperty k o).
  - intros H. apply in_map_iff in H. destruct H as [[a' b'] [H Hin]].
    simpl in H. destruct (String.eqb a' k).
    + left. congruence.
    + right. congruence.
  - intros H. apply in_app_or in H. destruct H as [H | [H | []]].
    + now right.
    + left. congruence.
Qed.

Lemma lowerCaseKeys_hasOwnProperty (k : string) (o : t) :
  lowerCaseKeys o = true ->
  JsString.toLowerCase k <> k ->
  hasOwnProperty k o = false.
Proof.
  intros Hl Hk. unfold hasOwnProperty.
  destruct (existsb _ o) eqn:E; [|reflexivity].
  apply existsb_exists in E. destruct E as [[a b] [Hin E]]. simpl in E.
  apply String.eqb_eq in E. subst a.
  unfold lowerCaseKeys in Hl. rewrite forallb_forall in Hl.
  specialize (Hl _ Hin). simpl in Hl. apply String.eqb_eq in Hl. contradiction.
Qed.

End ObjectFacts.

(* ------------------------------------------------------------------ *)
(** ** Facts about the response object *)

Section ResFacts.

Lemma getHeader_setHeader_same (n k v : string) (r : Res.t) :
  JsString.toLowerCase n = JsString.toLowerCase k ->
  Res.getHeader n (Res.setHeader k v r) = Some v.
Proof.
  intros H. unfold Res.getHeader, Res.setHeader. simpl.
  rewrite H. apply get_set_same.
Qed.

Lemma getHeader_setHeader_other (n k v : string) (r : Res.t) :
  JsString.toLowerCase n <> JsString.toLowerCase k ->
  Res.getHeader n (Res.setHeader k v r) = Res.getHeader n r.
Proof.
  intros H. unfold Res.getHeader, Res.setHeader. simpl.
  now apply get_set_other.
Qed.

Lemma writeHeaders_app (a b : JsObject.t) (r : Res.t) :
  Proxy.writeHeaders (a ++ b)%list r = Proxy.writeHeaders b (Proxy.writeHeaders a r).
Proof. unfold Proxy.writeHeaders. apply fold_left_app. Qed.

(** Copying headers touches nothing but the headers. *)
Lemma writeHeaders_rest (h : JsObject.t) (r : Res.t) :
  Res.statusCode (Proxy.writeHeaders h r) = Res.statusCode r /\
  Res.headersSent (Proxy.writeHeaders h r) = Res.headersSent r /\
  Res.body (Proxy.writeHeaders h r) = Res.body r /\
  Res.finished (Proxy.writeHeaders h r) = Res.finished r /\
  Res.hasBody (Proxy.writeHeaders h r) = Res.hasBody r.
Proof.
  revert r. induction h as [|[k v] h IH]; intros r; simpl; [auto 6|].
  destruct (IH (Res.setHeader k v r)) as (A & B & C & D & E).
  unfold Proxy.writeHeaders in *. simpl. now rewrite A, B, C, D, E.
Qed.

(** The value a header has after a copy is decided by the entries filed
    under its name, the last of them first. *)
Lemma writeHeaders_getHeader (n : string) (h : JsObject.t) (r : Res.t) :
  Res.getHeader n (Proxy.writeHeaders h r)
  = fold_left (fun acc kv =>
                 if String.eqb (JsString.toLowerCase (fst kv))
                      (JsString.toLowerCase n)
                 then Some (snd kv) else acc)
      h (Res.getHeader n r).
Proof.
  revert r. induction h as [|[k v] h IH]; intros r; [reflexivity|].
  unfold Proxy.writeHeaders in *. simpl. rewrite IH. f_equal.
  destruct (String.eqb (JsString.toLowerCase k) (JsString.toLowerCase n)) eqn:E.
  - apply String.eqb_eq in E. now apply getHeader_setHeader_same.
  - apply String.eqb_neq in E. apply getHeader_setHeader_other. congruence.
Qed.

Lemma last_named_set (ln k v : string) (h : JsObject.t) (init : option string) :
  JsString.toLowerCase k <> ln ->
  fold_left (fun acc kv =>
               if String.eqb (JsString.toLowerCase (fst kv)) ln
               then Some (snd kv) else acc)
    (JsObject.set k v h) init
  = fold_left (fun acc kv =>
                 if String.eqb (JsString.toLowerCase (fst kv)) ln
                 then Some (snd kv) else acc)
      h init.
Proof.
  intros Hk. apply String.eqb_neq in Hk.
  unfold JsObject.set. destruct (JsObject.hasOwnProperty k h).
  - revert init. induction h as [|[a b] h IH]; intros init; [reflexivity|].
    simpl. destruct (String.eqb a k) eqn:E; simpl.
    + apply String.eqb_eq in E. subst a. rewrite Hk. apply IH.
    + apply IH.
  - rewrite fold_left_app. simpl. now rewrite Hk.
Qed.

Lemma last_named_delete (ln k : string) (h : JsObject.t) (init : option string) :
  JsString.toLowerCase k <> ln ->
  fold_left (fun acc kv =>
               if String.eqb (JsString.toLowerCase (fst kv)) ln
               then Some (snd kv) else acc)
    (JsObject.delete k h) init
  = fold_left (fun acc kv =>
                 if String.eqb (JsString.toLowerCase (fst kv)) ln
                 then Some (snd kv) else acc)
      h init.
Proof.
  intros Hk. apply String.eqb_neq in Hk.
  revert init. induction h as [|[a b] h IH]; intros init; [reflexivity|].
  unfold JsObject.delete in *. simpl.
  destruct (String.eqb a k) eqn:E; simpl.
  - apply String.eqb_eq in E. subst a. rewrite Hk. apply IH.
  - apply IH.
Qed.

Lemma webOutgoing_status (req : Req.t) (p : ProxyRes.t) :
  ProxyRes.statusCode (Proxy.webOutgoing req p) = ProxyRes.statusCode p.
Proof.
  unfold Proxy.webOutgoing, Proxy.setConnection, Proxy.removeChunked.
  destruct (String.eqb (Req.httpVersion req) "1.0"); simpl; [reflexivity|].
  destruct (negb _ && _); reflexivity.
Qed.

(** The adjustment to the protocol version leaves every header but
    [connection] and [transfer-encoding] as the copy would have set
    it. *)
Lemma webOutgoing_header (n : string) (req : Req.t) (p : ProxyRes.t) (r : Res.t) :
  JsString.toLowerCase n <> "connection" ->
  JsString.toLowerCase n <> "transfer-encoding" ->
  Res.getHeader n (Proxy.writeHeaders (ProxyRes.headers (Proxy.webOutgoing req p)) r)
  = Res.getHeader n (Proxy.writeHeaders (ProxyRes.headers p) r).
Proof.
  intros Hc Ht. rewrite !writeHeaders_getHeader.
  unfold Proxy.webOutgoing, Proxy.setConnection, Proxy.removeChunked.
  destruct (String.eqb (Req.httpVersion req) "1.0"); simpl.
  - rewrite last_named_set by (intros E; apply Hc; now rewrite <- E).
    apply last_named_delete. intros E. apply Ht. now rewrite <- E.
  - destruct (negb _ && _); simpl; [|reflexivity].
    apply last_named_set. intros E. apply Hc. now rewrite <- E.
Qed.

Lemma piped_rest (chunks : list Http.chunk) (r : Res.t) :
  Res.statusCode (Proxy.piped chunks r) = Res.statusCode r /\
  Res.headers (Proxy.piped chunks r) = Res.headers r /\
  Res.finished (Proxy.piped chunks r) = Res.finished r /\
  Res.hasBody (Proxy.piped chunks r) = Res.hasBody r.
Proof.
  revert r. induction chunks as [|c cs IH]; intros r; simpl; [auto|].
  destruct (IH (Res.write (Http.Buffer c) r)) as (A & B & C & D).
  unfold Proxy.piped in *. simpl. now rewrite A, B, C, D.
Qed.

(** Piping appends the chunks, in order, and touches neither status nor
    headers. *)
Lemma piped_body (chunks : list Http.chunk) (r : Res.t) :
  Res.hasBody r = true ->
  Res.body (Proxy.piped chunks r) = (Res.body r ++ map Http.Buffer chunks)%list.
Proof.
  revert r. induction chunks as [|c cs IH]; intros r Hb; simpl.
  - now rewrite app_nil_r.
  - unfold Proxy.piped in *. simpl. rewrite IH by exact Hb. simpl.
    rewrite Hb. now rewrite <- app_assoc.
Qed.

Lemma piped_app (a b : list Http.chunk) (r : Res.t) :
  Proxy.piped (a ++ b)%list r = Proxy.piped b (Proxy.piped a r).
Proof. unfold Proxy.piped. apply fold_left_app. Qed.

Lemma received_app (a b : list Http.Payload) :
  Res.received (a ++ b)%list = (Res.received a ++ Res.received b)%list.
Proof.
  induction a as [|x a IH]; simpl; [reflexivity|].
  destruct x; simpl; auto. now rewrite IH, app_assoc.
Qed.

Lemma received_buffers (chunks : list Http.chunk) :
  Res.received (map Http.Buffer chunks) = concat chunks.
Proof. induction chunks as [|c cs IH]; simpl; [reflexivity|now rewrite IH]. Qed.

End ResFacts.

(* ------------------------------------------------------------------ *)
(** ** Facts about one proxied exchange *)

Section ProxyFacts.
Import Effects Outcome.

Variables (o : Proxy.Options) (req : Req.t) (env : Env) (w : World).

Hypothesis head_pending : Res.headersSent (res w) = false.
Hypothesis body_pending : Res.finished (res w) = false.

Lemma exec_relay (head : ProxyRes.t) (chunks : list Http.chunk) (w0 : World) :
  Res.headersSent (res w0) = false ->
  Res.finished (res w0) = false ->
  Proxy.selfHandleResponse o = false ->
  Proxy.relay o req head chunks env w0
  = (Normal tt,
     {| console := console w0; reported := reported w0; outgoing := outgoing w0;
        res := Proxy.piped chunks (Proxy.headed (relayedHead o req head) (res w0));
        uncaught := uncaught w0 |}).
Proof.
  intros Hs Hf Hself.
  unfold Proxy.relay. rewrite Hself.
  unfold Proxy.writeHead, Proxy.pipe, bind, getRes, onRes, ret.
  fold (relayedHead o req head).
  rewrite Hs. simpl. unfold Proxy.headed at 1.
  destruct (writeHeaders_rest (ProxyRes.headers (relayedHead o req head))
              (Res.status (ProxyRes.statusCode (relayedHead o req head)) (res w0)))
    as (_ & _ & _ & F & _).
  rewrite F. simpl. rewrite Hf. reflexivity.
Qed.

(** A complete answer: head, every chunk, end. *)
Lemma exec_responds (head : ProxyRes.t) (chunks : list Http.chunk) :
  net env (Proxy.setupOutgoing o req) = Responds head chunks ->
  Proxy.selfHandleResponse o = false ->
  Proxy.createProxyMiddleware o req env w
  = (Normal tt,
     {| console := console w; reported := reported w;
        outgoing := (outgoing w ++ [Proxy.setupOutgoing o req])%list;
        res := Res.end_ (Proxy.piped chunks
                 (Proxy.headed (relayedHead o req head) (res w)));
        uncaught := uncaught w |}).
Proof.
  intros Hn Hself.
  unfold Proxy.createProxyMiddleware, bind, request. rewrite Hn.
  rewrite exec_relay by assumption. rewrite Hself. reflexivity.
Qed.

(** An answer in progress: head and the chunks so far, no end. *)
Lemma exec_streaming (head : ProxyRes.t) (chunks : list Http.chunk) :
  net env (Proxy.setupOutgoing o req) = Streaming head chunks ->
  Proxy.selfHandleResponse o = false ->
  Proxy.createProxyMiddleware o req env w
  = (Normal tt,
     {| console := console w; reported := reported w;
        outgoing := (outgoing w ++ [Proxy.setupOutgoing o req])%list;
        res := Proxy.piped chunks (Proxy.headed (relayedHead o req head) (res w));
        uncaught := uncaught w |}).
Proof.
  intros Hn Hself.
  unfold Proxy.createProxyMiddleware, bind, request. rewrite Hn.
  now rewrite exec_relay.
Qed.

(** No answer and no timeout configured: nothing more happens. *)
Lemma exec_hangs :
  net env (Proxy.setupOutgoing o req) = Hangs ->
  Proxy.proxyTimeout o = None ->
  Proxy.timeout o = None ->
  Proxy.createProxyMiddleware o req env w
  = (Normal tt,
     {| console := console w; reported := reported w;
        outgoing := (outgoing w ++ [Proxy.setupOutgoing o req])%list;
        res := res w;
        uncaught := uncaught w |}).
Proof.
  intros Hn Hp Ht.
  unfold Proxy.createProxyMiddleware, bind, request. rewrite Hn, Hp, Ht.
  reflexivity.
Qed.

(** A failed connection runs [onError], then the package's report, as
    event listeners. *)
Lemma exec_unreachable (code : Http.Errno) (f : Http.JsError -> Req.t -> M unit) :
  net env (Proxy.setupOutgoing o req) = Unreachable code ->
  Proxy.onError o = Some f ->
  Proxy.createProxyMiddleware o req env w
  = listener (f (Http.NetworkError code) (Proxy.rewritten o req) ;;
              logError (Http.NetworkError code)) env
     {| console := console w; reported := reported w;
        outgoing := (outgoing w ++ [Proxy.setupOutgoing o req])%list;
        res := res w;
        uncaught := uncaught w |}.
Proof.
  intros Hn Hf.
  unfold Proxy.createProxyMiddleware, bind, request. rewrite Hn.
  unfold Proxy.fail. now rewrite Hf.
Qed.

(** The shape shared by the [onError] functions of the source: an
    optional [console.error], then [res.status(500)] and one body. *)
Lemma exec_reply_500 (p : Http.Payload) (w0 : World) :
  Res.headersSent (res w0) = false ->
  (Express.res_status 500 ;; Express.res_end_with p) env w0
  = (Normal tt,
     {| console := console w0; reported := reported w0; outgoing := outgoing w0;
        res := Res.end_ (Res.write p (Res.status 500 (res w0)));
        uncaught := uncaught w0 |}).
Proof.
  intros Hs.
  unfold Express.res_status, Express.res_end_with, bind, getRes, onRes.
  simpl. now rewrite Hs.
Qed.

Lemma exec_log_reply_500 (msg : string) (err : Http.JsError)
    (p : Http.Payload) (w0 : World) :
  Res.headersSent (res w0) = false ->
  (console_error msg err ;; Express.res_status 500 ;; Express.res_end_with p) env w0
  = (Normal tt,
     {| console := (console w0 ++ [(msg, err)])%list; reported := reported w0;
        outgoing := outgoing w0;
        res := Res.end_ (Res.write p (Res.status 500 (res w0)));
        uncaught := uncaught w0 |}).
Proof.
  intros Hs. unfold bind at 1. unfold console_error at 1.
  now rewrite exec_reply_500.
Qed.

End ProxyFacts.

(* ------------------------------------------------------------------ *)
(** ** Facts about the application *)

Section AppFacts.
Import Effects Gateway Outcome.

Lemma accepts_cases (m : Http.Method) :
  Express.get_accepts m = true -> m = Http.GET \/ m = Http.HEAD.
Proof. destruct m; simpl; intros H; try discriminate; auto. Qed.

Lemma cors_next (a : App.t) (req : Req.t) (env : Env) :
  Express.get_accepts (Req.method req) = true ->
  Cors.cors (App.corsOptions a) req env (start (Req.method req))
  = (Normal false, afterCors a (Req.method req)).
Proof.
  intros H. unfold Cors.cors.
  destruct (accepts_cases _ H) as [-> | ->]; reflexivity.
Qed.

Lemma afterCors_pending (a : App.t) (m : Http.Method) :
  Res.headersSent (res (afterCors a m)) = false /\
  Res.finished (res (afterCors a m)) = false.
Proof. split; reflexivity. Qed.

Lemma listener_returns (c : M unit) (env : Env) (w : World) :
  fst (listener c env w) = Normal tt.
Proof. unfold listener. destruct (c env w) as [[[]|e] w']; reflexivity. Qed.

Lemma relay_returns (o : Proxy.Options) (req : Req.t) (head : ProxyRes.t)
    (chunks : list Http.chunk) (env : Env) (w : World) :
  fst (Proxy.relay o req head chunks env w) = Normal tt.
Proof.
  unfold Proxy.relay, Proxy.writeHead, Proxy.pipe, bind, getRes, onRes, ret.
  destruct (Proxy.selfHandleResponse o); simpl.
  - now rewrite orb_true_r.
  - destruct (Res.headersSent (res w)); simpl; rewrite orb_false_r;
      match goal with |- context [if ?b then _ else _] => destruct b end;
      reflexivity.
Qed.

(** The proxy middleware always returns to its caller: what goes wrong
    goes wrong in a listener. *)
Lemma proxy_returns (o : Proxy.Options) (req : Req.t) (env : Env) (w : World) :
  fst (Proxy.createProxyMiddleware o req env w) = Normal tt.
Proof.
  unfold Proxy.createProxyMiddleware, bind, request. simpl.
  destruct (net env (Proxy.setupOutgoing o req)) as [code| |head chunks|head chunks].
  - apply listener_returns.
  - destruct (Proxy.proxyTimeout o), (Proxy.timeout o); try reflexivity;
      apply listener_returns.
  - apply relay_returns.
  - match goal with
    | |- context [Proxy.relay o req head chunks env ?w0] =>
        pose proof (relay_returns o req head chunks env w0) as H;
        destruct (Proxy.relay o req head chunks env w0) as [[[]|e] w']
    end; simpl in H; [|discriminate H].
    destruct (Proxy.selfHandleResponse o); reflexivity.
Qed.

Lemma catching_proxy (o : Proxy.Options) (req : Req.t) (env : Env) (w : World) :
  exec (App.catching (Proxy.createProxyMiddleware o req)) env w
  = exec (Proxy.createProxyMiddleware o req) env w.
Proof.
  unfold exec, App.catching.
  pose proof (proxy_returns o req env w) as H.
  destruct (Proxy.createProxyMiddleware o req env w) as [[[]|e] w'];
    simpl in *; [reflexivity|discriminate].
Qed.

(** Serving is running the stack on a fresh response. *)
Lemma serve_exec (v : Version) (p : App.Process) (env : Env) (req : Req.t) :
  running v p ->
  let w := exec (App.handle (app v) req) env (start (Req.method req)) in
  App.serve env req p
  = Some ({| App.table := app v; App.alive := App.settled w;
             App.stderr := (App.stderr p ++ console w)%list;
             App.hpm := (App.hpm p ++ reported w)%list |},
          if App.settled w
          then Some {| App.sent := outgoing w; App.response := res w |}
          else None).
Proof. intros [Ht Ha] w. unfold App.serve. now rewrite Ha, Ht. Qed.

(** A request on which nothing is sent, logged or thrown leaves the
    process as it was. *)
Lemma serve_quiet (v : Version) (p : App.Process) (env : Env) (req : Req.t)
    (r : Res.t) :
  running v p ->
  exec (App.handle (app v) req) env (start (Req.method req))
  = {| console := []; reported := []; outgoing := []; res := r;
       uncaught := None |} ->
  App.serve env req p
  = Some (p, Some {| App.sent := []; App.response := r |}).
Proof.
  intros Hrun He. rewrite (serve_exec v p env req Hrun). cbv zeta.
  rewrite He. cbn. rewrite !app_nil_r.
  destruct Hrun as [Ht Ha]. destruct p as [t a e h]. simpl in *.
  now subst.
Qed.

Lemma handle_unrouted (v : Version) (env : Env) (req : Req.t) :
  Express.get_accepts (Req.method req) = true ->
  App.lookup (App.routes (app v)) (Req.method req)
    (JsString.pathname (Req.url req)) = None ->
  exec (App.handle (app v) req) env (start (Req.method req))
  = {| console := []; reported := []; outgoing := [];
       res := notFound (app v) (Req.method req); uncaught := None |}.
Proof.
  intros Hm Hl. unfold App.handle, exec, bind.
  rewrite (cors_next _ _ _ Hm), Hl. reflexivity.
Qed.

Lemma notFound_answer (v : Version) (m : Http.Method) :
  m <> Http.HEAD ->
  Res.statusCode (notFound (app v) m) = 404 /\
  Res.body (notFound (app v) m) = [Http.ErrorPage] /\
  Res.getHeader "Access-Control-Allow-Origin" (notFound (app v) m) = Some "*" /\
  Res.finished (notFound (app v) m) = true.
Proof. intros H. destruct v, m; try contradiction; repeat split. Qed.

(** Serving a request that the router hands to a proxy middleware. *)
Lemma serve_middleware (v : Version) (p : App.Process) (env : Env)
    (req : Req.t) (path : string) (o : Proxy.Options) :
  running v p ->
  Express.get_accepts (Req.method req) = true ->
  App.lookup (App.routes (app v)) (Req.method req)
    (JsString.pathname (Req.url req))
  = Some (App.get path (App.Middleware o)) ->
  let w := exec (Proxy.createProxyMiddleware o req) env
             (afterCors (app v) (Req.method req)) in
  App.serve env req p
  = Some ({| App.table := app v; App.alive := App.settled w;
             App.stderr := (App.stderr p ++ console w)%list;
             App.hpm := (App.hpm p ++ reported w)%list |},
          if App.settled w
          then Some {| App.sent := outgoing w; App.response := res w |}
          else None).
Proof.
  intros [Ht Ha] Hm Hl w.
  unfold App.serve. rewrite Ha, Ht.
  assert (exec (App.handle (app v) req) env (start (Req.method req)) = w)
    as ->; [|reflexivity].
  unfold App.handle, exec at 1, bind. rewrite (cors_next _ _ _ Hm), Hl.
  apply catching_proxy.
Qed.

(** Serving a request that the router hands to a function of the
    source. *)
Lemma serve_callback (v : Version) (p : App.Process) (env : Env)
    (req : Req.t) (path : string) (f : Req.t -> M unit) :
  running v p ->
  Express.get_accepts (Req.method req) = true ->
  App.lookup (App.routes (app v)) (Req.method req)
    (JsString.pathname (Req.url req))
  = Some (App.get path (App.Callback f)) ->
  let w := exec (App.catching (f req)) env
             (afterCors (app v) (Req.method req)) in
  App.serve env req p
  = Some ({| App.table := app v; App.alive := App.settled w;
             App.stderr := (App.stderr p ++ console w)%list;
             App.hpm := (App.hpm p ++ reported w)%list |},
          if App.settled w
          then Some {| App.sent := outgoing w; App.response := res w |}
          else None).
Proof.
  intros [Ht Ha] Hm Hl w.
  unfold App.serve. rewrite Ha, Ht.
  assert (exec (App.handle (app v) req) env (start (Req.method req)) = w)
    as ->; [|reflexivity].
  unfold App.handle, exec at 1, bind. now rewrite (cors_next _ _ _ Hm), Hl.
Qed.

(** Running the middleware ends in the state [Outcome] writes out. *)
Lemma exec_closed (o : Proxy.Options) (f : Http.JsError -> Req.t -> M unit)
    (msg : option string) (body : Http.Payload)
    (req : Req.t) (env : Env) (w : World) :
  Proxy.onError o = Some f ->
  replies500 f msg body ->
  Proxy.timeout o = None ->
  Proxy.proxyTimeout o = None ->
  Proxy.selfHandleResponse o = false ->
  Res.headersSent (res w) = false ->
  Res.finished (res w) = false ->
  exec (Proxy.createProxyMiddleware o req) env w
  = {| console := (console w
                   ++ settledLog msg (net env (Proxy.setupOutgoing o req)))%list;
       reported := (reported w
                    ++ settledReports (net env (Proxy.setupOutgoing o req)))%list;
       outgoing := (outgoing w ++ [Proxy.setupOutgoing o req])%list;
       res := settledRes o req body (net env (Proxy.setupOutgoing o req)) (res w);
       uncaught := uncaught w |}.
Proof.
  intros Hf Hr Ht Hpt Hself Hs Hfin. unfold exec.
  destruct (net env (Proxy.setupOutgoing o req))
    as [code| |head chunks|head chunks] eqn:N.
  - rewrite (exec_unreachable _ _ _ _ code f N Hf).
    unfold listener, bind. rewrite Hr by assumption.
    destruct msg; reflexivity.
  - rewrite (exec_hangs _ _ _ _ N Hpt Ht). simpl. now rewrite !app_nil_r.
  - rewrite (exec_streaming _ _ _ _ Hs Hfin _ _ N Hself). simpl.
    now rewrite !app_nil_r.
  - rewrite (exec_responds _ _ _ _ Hs Hfin _ _ N Hself). simpl.
    now rewrite !app_nil_r.
Qed.

Lemma replies500_logged (msg : string) (body : Http.Payload) :
  replies500 (fun err _ =>
                console_error msg err ;;
                Express.res_status 500 ;; Express.res_end_with body)
             (Some msg) body.
Proof. intros err req env w Hs. now apply exec_log_reply_500. Qed.

Lemma replies500_silent (body : Http.Payload) :
  replies500 (fun _ _ => Express.res_status 500 ;; Express.res_end_with body)
             None body.
Proof.
  intros err req env w Hs. rewrite exec_reply_500 by assumption.
  simpl. now rewrite app_nil_r.
Qed.

Lemma proxied_lookup (v : Version) (name : string) (m : Http.Method) :
  In name (proxiedNames v) ->
  Express.get_accepts m = true ->
  App.lookup (App.routes (app v)) m ("/api/" ++ name)
  = Some (App.get ("/api/" ++ name) (App.Middleware (proxyFor v name))).
Proof.
  intros Hin Hm.
  destruct v; simpl in Hin;
    repeat (destruct Hin as [<- | Hin]; [simpl; rewrite Hm; reflexivity|]);
    destruct Hin.
Qed.

Lemma proxied_exec (v : Version) (name : string) (req : Req.t) (env : Env)
    (w : World) :
  In name (proxiedNames v) ->
  Res.headersSent (res w) = false ->
  Res.finished (res w) = false ->
  exec (Proxy.createProxyMiddleware (proxyFor v name) req) env w
  = {| console :=
         (console w
          ++ settledLog (failureLog v name)
               (net env (Proxy.setupOutgoing (proxyFor v name) req)))%list;
       reported :=
         (reported w
          ++ settledReports
               (net env (Proxy.setupOutgoing (proxyFor v name) req)))%list;
       outgoing := (outgoing w ++ [Proxy.setupOutgoing (proxyFor v name) req])%list;
       res := settledRes (proxyFor v name) req (failureBody name)
                (net env (Proxy.setupOutgoing (proxyFor v name) req)) (res w);
       uncaught := uncaught w |}.
Proof.
  intros Hin Hs Hf.
  destruct v; simpl in Hin;
    repeat (destruct Hin as [<- | Hin];
            [ eapply exec_closed;
              [ reflexivity
              | first [ exact (replies500_logged _ _)
                      | exact (replies500_silent _) ]
              | reflexivity | reflexivity | reflexivity
              | assumption | assumption ]
            | ]);
    destruct Hin.
Qed.

(** Serving a request for a proxied route, in closed form. *)
Lemma serve_proxied (v : Version) (name : string) (env : Env) (req : Req.t)
    (p : App.Process) :
  running v p ->
  In name (proxiedNames v) ->
  Express.get_accepts (Req.method req) = true ->
  JsString.pathname (Req.url req) = "/api/" ++ name ->
  let o := proxyFor v name in
  let up := net env (Proxy.setupOutgoing o req) in
  App.serve env req p
  = Some ({| App.table := app v; App.alive := true;
             App.stderr := (App.stderr p ++ settledLog (failureLog v name) up)%list;
             App.hpm := (App.hpm p ++ settledReports up)%list |},
          Some {| App.sent := [Proxy.setupOutgoing o req];
                  App.response :=
                    settledRes o req (failureBody name) up
                      (res (afterCors (app v) (Req.method req))) |}).
Proof.
  intros Hrun Hin Hm Hp o up.
  pose proof (proxied_lookup v name _ Hin Hm) as Hl. rewrite <- Hp in Hl.
  rewrite (serve_middleware v p env req _ _ Hrun Hm Hl).
  destruct (afterCors_pending (app v) (Req.method req)) as [Hs Hf].
  rewrite (proxied_exec v name req env _ Hin Hs Hf).
  reflexivity.
Qed.

Lemma commands_proxied (v : Version) (c : string) :
  In c (commands v) ->
  In c (proxiedNames v) /\ proxyFor v c = commandProxy v c
  /\ upstreamOf v c = controller v.
Proof.
  intros Hin.
  destruct v; simpl in Hin;
    repeat (destruct Hin as [<- | Hin];
            [split; [simpl; tauto | split; reflexivity]|]);
    destruct Hin.
Qed.

End AppFacts.

(* ------------------------------------------------------------------ *)
(** ** Facts about relayed headers *)

Section HeaderFacts.
Import Effects Gateway Outcome.

Lemma hasOwnProperty_app (k : string) (a b : JsObject.t) :
  JsObject.hasOwnProperty k (a ++ b)%list
  = JsObject.hasOwnProperty k a || JsObject.hasOwnProperty k b.
Proof. unfold JsObject.hasOwnProperty. apply existsb_app. Qed.

(** Assigning a capitalised name to headers parsed by Node adds an
    entry at the end: the parsed names are all lower case. *)
Lemma assign_fresh (k v : string) (hs extra : JsObject.t) :
  JsObject.lowerCaseKeys hs = true ->
  JsString.toLowerCase k <> k ->
  JsObject.hasOwnProperty k extra = false ->
  JsObject.set k v (hs ++ extra)%list = (hs ++ (extra ++ [(k, v)]))%list.
Proof.
  intros Hl Hk He. unfold JsObject.set.
  rewrite hasOwnProperty_app, He,
    (lowerCaseKeys_hasOwnProperty k hs Hl Hk).
  simpl. now rewrite app_assoc.
Qed.

Lemma assign_first (k v : string) (hs : JsObject.t) :
  JsObject.lowerCaseKeys hs = true ->
  JsString.toLowerCase k <> k ->
  JsObject.set k v hs = (hs ++ [(k, v)])%list.
Proof.
  intros Hl Hk. rewrite <- (app_nil_r hs) at 1.
  now apply assign_fresh.
Qed.

Lemma getHeader_headers (n : string) (r r' : Res.t) :
  Res.headers r = Res.headers r' -> Res.getHeader n r = Res.getHeader n r'.
Proof. unfold Res.getHeader. now intros ->. Qed.

Variables (o : Proxy.Options) (req : Req.t) (body : Http.Payload).
Variables (closed : bool) (head : ProxyRes.t) (chunks : list Http.chunk).
Variable r : Res.t.

Lemma relayed_header_adjusted (n : string) :
  Res.getHeader n (settledRes o req body (answer closed head chunks) r)
  = Res.getHeader n (Proxy.headed (relayedHead o req head) r).
Proof.
  apply getHeader_headers.
  destruct closed; simpl;
    now destruct (piped_rest chunks (Proxy.headed (relayedHead o req head) r))
      as (_ & -> & _).
Qed.

(** The adjustment to the protocol version is about [connection] and
    [transfer-encoding] only. *)
Lemma relayed_header (n : string) :
  JsString.toLowerCase n <> "connection" ->
  JsString.toLowerCase n <> "transfer-encoding" ->
  Res.getHeader n (settledRes o req body (answer closed head chunks) r)
  = Res.getHeader n (Proxy.headed (Proxy.proxyRes o head) r).
Proof.
  intros Hc Ht. rewrite relayed_header_adjusted.
  unfold relayedHead, Proxy.headed.
  rewrite webOutgoing_status. now apply webOutgoing_header.
Qed.

Lemma relayed_status :
  Res.statusCode (settledRes o req body (answer closed head chunks) r)
  = ProxyRes.statusCode (Proxy.proxyRes o head).
Proof.
  rewrite <- (webOutgoing_status req (Proxy.proxyRes o head)).
  fold (relayedHead o req head).
  destruct closed; simpl;
    destruct (piped_rest chunks (Proxy.headed (relayedHead o req head) r))
      as (-> & _);
    unfold Proxy.headed;
    now destruct (writeHeaders_rest (ProxyRes.headers (relayedHead o req head))
                    (Res.status (ProxyRes.statusCode (relayedHead o req head)) r))
      as (-> & _).
Qed.

Lemma relayed_body :
  Res.hasBody r = true ->
  Res.body (settledRes o req body (answer closed head chunks) r)
  = (Res.body r ++ map Http.Buffer chunks)%list.
Proof.
  intros Hb.
  destruct (writeHeaders_rest (ProxyRes.headers (relayedHead o req head))
              (Res.status (ProxyRes.statusCode (relayedHead o req head)) r))
    as (_ & _ & B & _ & H).
  destruct closed; simpl; rewrite piped_body; unfold Proxy.headed;
    first [now rewrite B | now rewrite H].
Qed.

Lemma relayed_finished :
  Res.finished r = false ->
  Res.finished (settledRes o req body (answer closed head chunks) r) = closed.
Proof.
  intros Hf. destruct closed; simpl; [reflexivity|].
  destruct (piped_rest chunks (Proxy.headed (relayedHead o req head) r))
    as (_ & _ & -> & _).
  unfold Proxy.headed.
  now destruct (writeHeaders_rest (ProxyRes.headers (relayedHead o req head))
                  (Res.status (ProxyRes.statusCode (relayedHead o req head)) r))
    as (_ & _ & _ & -> & _).
Qed.

End HeaderFacts.

(** Finds the name of a proxied route among the names of the source. *)
Ltac pick_name :=
let rec go l :=
  match l with
  | ?n :: ?r => first [ exists n; split; [simpl; tauto | reflexivity] | go r ]
  end in
go constr:(["sensor"; "forward"; "backward"; "left"; "right"; "stop";
            "valve1_on"; "valve1_off"; "valve2_on"; "valve2_off"; "stream"]).

(** Looks a header up in a response built by a chain of [setHeader]. *)
Ltac header_lookup :=
repeat first
  [ rewrite getHeader_setHeader_same by reflexivity
  | rewrite getHeader_setHeader_other by (vm_compute; discriminate) ];
try reflexivity.

(* ------------------------------------------------------------------ *)
(** ** Facts about the two route tables *)

Section TableFacts.
Import Effects Gateway Outcome.

(** The [pathRewrite] keys of both versions are a caret and a literal. *)
Lemma rewrite_keys_literal (v : Version) (o : Proxy.Options) (key value : string) :
  In o (proxied (app v)) ->
  In (key, value) (Proxy.pathRewrite o) ->
  exists lit, key = String "^" lit /\ JsString.literal lit = true.
Proof.
  intros Ho Hk. destruct v; simpl in Ho;
    repeat (destruct Ho as [<- | Ho];
            [ destruct Hk as [Hk | []]; injection Hk as <- _;
              eexists; split; reflexivity | ]);
    destruct Ho.
Qed.

Lemma stream_proxyRes_headers (head : ProxyRes.t) :
  JsObject.lowerCaseKeys (ProxyRes.headers head) = true ->
  ProxyRes.headers (Proxy.proxyRes Index.stream head)
  = (ProxyRes.headers head
     ++ [("Content-Type",
          "multipart/x-mixed-replace; boundary=123456789000000000000987654321");
         ("Access-Control-Allow-Origin", "*");
         ("Cache-Control", "no-cache, no-store, must-revalidate");
         ("Pragma", "no-cache");
         ("Expires", "0")])%list.
Proof.
  intros Hl.
  change (ProxyRes.headers (Proxy.proxyRes Index.stream head))
    with (JsObject.set "Expires" "0"
           (JsObject.set "Pragma" "no-cache"
             (JsObject.set "Cache-Control" "no-cache, no-store, must-revalidate"
               (JsObject.set "Access-Control-Allow-Origin" "*"
                 (JsObject.set "Content-Type"
                    "multipart/x-mixed-replace; boundary=123456789000000000000987654321"
                    (ProxyRes.headers head)))))).
  rewrite (assign_first "Content-Type" _ (ProxyRes.headers head) Hl)
    by (vm_compute; discriminate).
  repeat (rewrite assign_fresh;
          [ | assumption | vm_compute; discriminate | reflexivity ]).
  reflexivity.
Qed.

(** The stream route of the earlier version sets fewer headers:
    [Cache-Control] is only [no-cache], and [Pragma] and [Expires] are
    left as the camera sent them. *)
Lemma earlier_stream_headers (head : ProxyRes.t) :
  JsObject.lowerCaseKeys (ProxyRes.headers head) = true ->
  ProxyRes.headers (Proxy.proxyRes Part000.stream head)
  = (ProxyRes.headers head
     ++ [("Content-Type",
          "multipart/x-mixed-replace; boundary=123456789000000000000987654321");
         ("Access-Control-Allow-Origin", "*");
         ("Cache-Control", "no-cache")])%list.
Proof.
  intros Hl.
  change (ProxyRes.headers (Proxy.proxyRes Part000.stream head))
    with (JsObject.set "Cache-Control" "no-cache"
           (JsObject.set "Access-Control-Allow-Origin" "*"
             (JsObject.set "Content-Type"
                "multipart/x-mixed-replace; boundary=123456789000000000000987654321"
                (ProxyRes.headers head)))).
  rewrite (assign_first "Content-Type" _ (ProxyRes.headers head) Hl)
    by (vm_compute; discriminate).
  repeat (rewrite assign_fresh;
          [ | assumption | vm_compute; discriminate | reflexivity ]).
  reflexivity.
Qed.

Lemma lookup_In (rs : list App.Route) (m : Http.Method) (path : string)
    (r : App.Route) :
  App.lookup rs m path = Some r -> In r rs.
Proof.
  induction rs as [|a rs IH]; simpl; [discriminate|].
  destruct (Express.get_accepts m && Express.path_test (App.path a) path).
  - intros H. injection H as ->. now left.
  - intros H. right. now apply IH.
Qed.

Lemma lookup_rejects (rs : list App.Route) (m : Http.Method) (path : string) :
  Express.get_accepts m = false -> App.lookup rs m path = None.
Proof.
  intros H. induction rs as [|r rs IH]; simpl; [reflexivity|].
  now rewrite H.
Qed.

Lemma serve_table (env : Env) (req : Req.t) (p p' : App.Process)
    (x : option App.Exchange) :
  App.serve env req p = Some (p', x) -> App.table p' = App.table p.
Proof.
  unfold App.serve. destruct (App.alive p).
  - intros H. injection H as <- _. reflexivity.
  - intros H. injection H as <- _. reflexivity.
Qed.

Lemma run_table (inputs : list (Env * Req.t)) (p p' : App.Process)
    (xs : list (option App.Exchange)) :
  App.run inputs p = Some (p', xs) -> App.table p' = App.table p.
Proof.
  revert p xs. induction inputs as [|[env req] rest IH]; intros p xs; simpl.
  - intros H. injection H as <- _. reflexivity.
  - destruct (App.serve env req p) as [[q x]|] eqn:S; [|discriminate].
    destruct (App.run rest q) as [[q' xs']|] eqn:R; [|discriminate].
    intros H. injection H as <- _.
    rewrite (IH _ _ R). exact (serve_table _ _ _ _ _ S).
Qed.

End TableFacts.

(* ------------------------------------------------------------------ *)
(** ** Facts about routing and about every served request *)

Section RoutingFacts.
Import Effects Gateway Outcome Platform.



Lemma lookup_none (rs : list App.Route) (m : Http.Method) (x : string) :
  (forall r, In r rs -> Express.path_test (App.path r) x = false) ->
  App.lookup rs m x = None.
Proof.
  induction rs as [|r rs IH]; intros H; simpl; [reflexivity|].
  rewrite (H r (or_introl eq_refl)), andb_false_r.
  apply IH. intros r' Hr'. apply H. now right.
Qed.




Lemma serve_proxied_routed (v : Version) (name : string) (env : Env)
    (req : Req.t) (p : App.Process) :
  running v p ->
  In name (proxiedNames v) ->
  Express.get_accepts (Req.method req) = true ->
  App.lookup (App.routes (app v)) (Req.method req)
    (JsString.pathname (Req.url req))
  = Some (App.get ("/api/" ++ name) (App.Middleware (proxyFor v name))) ->
  let o := proxyFor v name in
  let up := net env (Proxy.setupOutgoing o req) in
  App.serve env req p
  = Some ({| App.table := app v; App.alive := true;
             App.stderr := (App.stderr p ++ settledLog (failureLog v name) up)%list;
             App.hpm := (App.hpm p ++ settledReports up)%list |},
          Some {| App.sent := [Proxy.setupOutgoing o req];
                  App.response :=
                    settledRes o req (failureBody name) up
                      (res (afterCors (app v) (Req.method req))) |}).
Proof.
  intros Hrun Hin Hm Hl o up.
  rewrite (serve_middleware v p env req _ _ Hrun Hm Hl).
  destruct (afterCors_pending (app v) (Req.method req)) as [Hs Hf].
  rewrite (proxied_exec v name req env _ Hin Hs Hf).
  reflexivity.
Qed.


End RoutingFacts.

Section ServedFacts.
Import Effects Gateway Outcome Platform.

(** The functions of the source that answer on their own send nothing
    upstream, log nothing, throw nothing and end the response with
    status 200; the other handlers are the proxy middleware of a named
    route and, in the earlier version, the piped stream. *)
Lemma route_kinds (v : Version) (r : App.Route) :
  In r (App.routes (app v)) ->
  (exists f, App.handler r = App.Callback f /\
     forall req env,
     exists r',
       exec (App.catching (f req)) env (afterCors (app v) (Req.method req))
       = {| console := []; reported := []; outgoing := []; res := r';
            uncaught := None |} /\
       Res.getHeader "Access-Control-Allow-Origin" r' = Some "*" /\
       Res.finished r' = true)
  \/ (exists name, In name (proxiedNames v) /\
        App.path r = "/api/" ++ name /\
        App.handler r = App.Middleware (proxyFor v name))
  \/ (v = Earlier /\ exists o next, App.handler r = App.Piped o next).
Proof.
  intros H. destruct v; simpl in H;
    repeat (destruct H as [<- | H];
            [ first
                [ left; eexists; split; [reflexivity|]; intros;
                  eexists; split; [reflexivity|]; split; reflexivity
                | right; left;
                  first [ exists "sensor"; repeat split; [simpl; tauto]
                        | exists "forward"; repeat split; [simpl; tauto]
                        | exists "backward"; repeat split; [simpl; tauto]
                        | exists "left"; repeat split; [simpl; tauto]
                        | exists "right"; repeat split; [simpl; tauto]
                        | exists "stop"; repeat split; [simpl; tauto]
                        | exists "valve1_on"; repeat split; [simpl; tauto]
                        | exists "valve1_off"; repeat split; [simpl; tauto]
                        | exists "valve2_on"; repeat split; [simpl; tauto]
                        | exists "valve2_off"; repeat split; [simpl; tauto]
                        | exists "stream"; repeat split; [simpl; tauto] ]
                | right; right; split; [reflexivity|];
                  do 2 eexists; reflexivity ]
            | ]); destruct H.
Qed.

(** A request that falls on the piped stream route brings the process
    down and gets no answer. *)
Lemma serve_piped (v : Version) (p : App.Process) (env : Env) (req : Req.t)
    (path : string) (o : Proxy.Options) (next : option Http.JsError -> M unit) :
  running v p ->
  Express.get_accepts (Req.method req) = true ->
  App.lookup (App.routes (app v)) (Req.method req)
    (JsString.pathname (Req.url req))
  = Some (App.get path (App.Piped o next)) ->
  App.serve env req p
  = Some ({| App.table := app v; App.alive := false;
             App.stderr := App.stderr p; App.hpm := App.hpm p |}, None).
Proof.
  intros Hrun Hm Hl. rewrite (serve_exec v p env req Hrun). cbv zeta.
  assert (exec (App.handle (app v) req) env (start (Req.method req))
          = {| console := []; reported := []; outgoing := [];
               res := res (afterCors (app v) (Req.method req));
               uncaught := Some Http.TypeError |}) as ->.
  { unfold App.handle, exec, bind. rewrite (cors_next _ _ _ Hm), Hl.
    reflexivity. }
  cbn. now rewrite !app_nil_r.
Qed.

(** What serving a request does, by the route the request falls on:
    it is answered locally, with nothing sent upstream and the process
    left as it was; or it goes to the proxy middleware of a named route;
    or, in the earlier version, it falls on the piped stream route. *)
Lemma serve_kinds (v : Version) (env : Env) (req : Req.t) (p : App.Process) :
  running v p ->
  (exists r,
     App.serve env req p
     = Some (p, Some {| App.sent := []; App.response := r |}) /\
     Res.getHeader "Access-Control-Allow-Origin" r = Some "*" /\
     Res.finished r = true)
  \/ (exists name,
        In name (proxiedNames v) /\
        Express.get_accepts (Req.method req) = true /\
        App.lookup (App.routes (app v)) (Req.method req)
          (JsString.pathname (Req.url req))
        = Some (App.get ("/api/" ++ name) (App.Middleware (proxyFor v name))))
  \/ (v = Earlier /\
      App.serve env req p
      = Some ({| App.table := app v; App.alive := false;
                 App.stderr := App.stderr p; App.hpm := App.hpm p |}, None)).
Proof.
  intros Hrun.
  destruct (Express.get_accepts (Req.method req)) eqn:Hm.
  - destruct (App.lookup (App.routes (app v)) (Req.method req)
                (JsString.pathname (Req.url req))) as [r|] eqn:L.
    + pose proof (lookup_In _ _ _ _ L) as Hin.
      destruct r as [path h]. change {| App.path := path; App.handler := h |}
        with (App.get path h) in *.
      destruct (route_kinds v _ Hin)
        as [(f & Hf & Hloc) | [(name & Hn & Hp & Hf) | (Hv & o & next & Hf)]];
        simpl in Hf; subst h.
      * left. destruct (Hloc req env) as (r' & He & A & B).
        exists r'. split; [|auto].
        apply (serve_quiet v p env req r' Hrun).
        unfold App.handle, exec at 1, bind.
        rewrite (cors_next _ _ _ Hm), L. exact He.
      * right. left. exists name. simpl in Hp. subst path. auto.
      * right. right. split; [exact Hv|].
        exact (serve_piped v p env req _ _ _ Hrun Hm L).
    + left. exists (notFound (app v) (Req.method req)).
      split; [|destruct v; split; reflexivity].
      apply (serve_quiet v p env req _ Hrun).
      now apply handle_unrouted.
  - left.
    assert (exists r,
              exec (App.handle (app v) req) env (start (Req.method req))
              = {| console := []; reported := []; outgoing := []; res := r;
                   uncaught := None |} /\
              Res.getHeader "Access-Control-Allow-Origin" r = Some "*" /\
              Res.finished r = true) as (r & He & A & B).
    { unfold App.handle, exec, bind.
      rewrite (lookup_rejects _ _ _ Hm).
      unfold Cors.cors.
      destruct v, (Req.method req); try discriminate Hm;
        eexists; (split; [reflexivity|]); split; reflexivity. }
    exists r. split; [|auto].
    now apply (serve_quiet v p env req r Hrun).
Qed.

(** Every served request is answered locally, with nothing sent
    upstream and nothing logged, or goes through one proxied route and
    ends as [Outcome] says; either way the process stays up. *)
Lemma served_full (v : Version) (env : Env) (req : Req.t)
    (p p' : App.Process) (x : App.Exchange) :
  running v p ->
  App.serve env req p = Some (p', Some x) ->
  running v p' /\
  ((App.sent x = [] /\
    Res.getHeader "Access-Control-Allow-Origin" (App.response x) = Some "*" /\
    Res.finished (App.response x) = true /\
    p' = p)
   \/ exists name,
        In name (proxiedNames v) /\
        Express.get_accepts (Req.method req) = true /\
        App.sent x = [Proxy.setupOutgoing (proxyFor v name) req] /\
        App.response x
        = settledRes (proxyFor v name) req (failureBody name)
            (net env (Proxy.setupOutgoing (proxyFor v name) req))
            (res (afterCors (app v) (Req.method req))) /\
        App.stderr p'
        = (App.stderr p
           ++ settledLog (failureLog v name)
                (net env (Proxy.setupOutgoing (proxyFor v name) req)))%list /\
        App.hpm p'
        = (App.hpm p
           ++ settledReports
                (net env (Proxy.setupOutgoing (proxyFor v name) req)))%list).
Proof.
  intros Hrun Hs.
  destruct (serve_kinds v env req p Hrun)
    as [(r & He & A & B) | [(name & Hn & Hm & L) | (_ & He)]].
  - rewrite He in Hs. injection Hs as <- <-.
    split; [exact Hrun|]. left. auto.
  - rewrite (serve_proxied_routed v name env req p Hrun Hn Hm L) in Hs.
    injection Hs as <- <-.
    split; [split; reflexivity|].
    right. exists name. cbn [App.sent App.response App.stderr App.hpm].
    repeat split; auto.
  - rewrite He in Hs. discriminate Hs.
Qed.

(** One inbound request causes at most one request upstream, and only on
    a proxied route. *)
Lemma served_sent (v : Version) (env : Env) (req : Req.t)
    (p p' : App.Process) (x : App.Exchange) :
  running v p ->
  App.serve env req p = Some (p', Some x) ->
  App.sent x = []
  \/ exists name, In name (proxiedNames v) /\
        App.sent x = [Proxy.setupOutgoing (proxyFor v name) req].
Proof.
  intros Hrun Hs.
  destruct (served_full v env req p p' x Hrun Hs)
    as [_ [(A & _) | (name & Hn & _ & A & _)]].
  - now left.
  - right. now exists name.
Qed.

(** A running process of [src/index.js] answers every request and
    stays up. *)
Lemma index_serves (env : Env) (req : Req.t) (p : App.Process) :
  running Current p ->
  exists p' x, App.serve env req p = Some (p', Some x) /\ running Current p'.
Proof.
  intros Hrun.
  destruct (serve_kinds Current env req p Hrun)
    as [(r & He & _) | [(name & Hn & Hm & L) | (Hv & _)]].
  - do 2 eexists. split; [exact He|exact Hrun].
  - do 2 eexists.
    split; [exact (serve_proxied_routed Current name env req p Hrun Hn Hm L)|].
    split; reflexivity.
  - discriminate Hv.
Qed.

(** In the earlier version a request for the stream brings the process
    down. *)
Lemma earlier_stream_dies (env : Env) (req : Req.t) (p : App.Process) :
  running Earlier p ->
  Express.get_accepts (Req.method req) = true ->
  JsString.pathname (Req.url req) = "/api/stream" ->
  App.serve env req p
  = Some ({| App.table := Part000.app; App.alive := false;
             App.stderr := App.stderr p; App.hpm := App.hpm p |}, None).
Proof.
  intros Hrun Hm Hp.
  apply (serve_piped Earlier p env req "/api/stream" Part000.stream
           Part000.streamNext Hrun Hm).
  rewrite Hp. simpl. now rewrite Hm.
Qed.

End ServedFacts.

Section PassThroughFacts.
Import Effects Gateway Outcome Platform.

Lemma get_absent (k : string) (o : JsObject.t) :
  ~ In k (JsObject.keys o) -> JsObject.get k o = None.
Proof.
  induction o as [|[a b] o IH]; simpl; [reflexivity|].
  intros H. destruct (String.eqb a k) eqn:E.
  - apply String.eqb_eq in E. exfalso. apply H. now left.
  - apply IH. intros Hin. apply H. now right.
Qed.

(** Copying parsed headers leaves each of them readable under its name,
    and leaves the other headers of the response as they were. *)
Lemma writeHeaders_get (n : string) (hs : JsObject.t) (r : Res.t) :
  parsed hs ->
  Res.getHeader n (Proxy.writeHeaders hs r)
  = match JsObject.get (JsString.toLowerCase n) hs with
    | Some v => Some v
    | None => Res.getHeader n r
    end.
Proof.
  intros [Hl Hd]. revert r.
  induction hs as [|[k v] hs IH]; intros r; [reflexivity|].
  simpl in Hl. apply andb_true_iff in Hl. destruct Hl as [Hk Hl].
  apply String.eqb_eq in Hk.
  simpl in Hd. apply NoDup_cons_iff in Hd. destruct Hd as [Hnot Hd].
  change (Proxy.writeHeaders ((k, v) :: hs) r)
    with (Proxy.writeHeaders hs (Res.setHeader k v r)).
  rewrite (IH Hl Hd). simpl.
  destruct (String.eqb k (JsString.toLowerCase n)) eqn:E.
  - apply String.eqb_eq in E. subst k.
    rewrite (get_absent _ _ Hnot).
    apply getHeader_setHeader_same. now rewrite Hk.
  - destruct (JsObject.get (JsString.toLowerCase n) hs); [reflexivity|].
    apply getHeader_setHeader_other. rewrite Hk. intros C.
    rewrite C, String.eqb_refl in E. discriminate E.
Qed.

Lemma closeConnection_keys (k value : string) (h : JsObject.t) :
  In (k, value) (Proxy.closeConnection h) -> k = "connection" \/ In (k, value) h.
Proof.
  unfold Proxy.closeConnection.
  destruct (JsObject.get "connection" h) as [c|];
    [destruct (Proxy.upgradeHeader c)|]; intros H; auto;
    exact (set_keys _ _ _ _ _ H).
Qed.

(** The outgoing request carries every header of the inbound one, but
    for [host] and [connection]. *)
Lemma closeConnection_get (k : string) (h : JsObject.t) :
  k <> "connection" ->
  JsObject.get k (Proxy.closeConnection h) = JsObject.get k h.
Proof.
  intros Hk. unfold Proxy.closeConnection.
  destruct (JsObject.get "connection" h) as [c|];
    [destruct (Proxy.upgradeHeader c)|]; auto using get_set_other.
Qed.

Lemma proxied_rewrite (v : Version) (name : string) :
  In name (proxiedNames v) ->
  Proxy.pathRewrite (proxyFor v name)
  = [(String "^" ("/api/" ++ name), "/" ++ name)] /\
  Proxy.target (proxyFor v name) = upstreamOf v name /\
  JsString.pathname ("/" ++ name) = "/" ++ name /\
  JsString.pathname ("/" ++ name ++ "/") = "/" ++ name ++ "/".
Proof.
  intros Hin. destruct v; simpl in Hin;
    repeat (destruct Hin as [<- | Hin];
            [repeat (split; [reflexivity|]); reflexivity|]);
    destruct Hin.
Qed.

End PassThroughFacts.

(* ------------------------------------------------------------------ *)
(** ** Properties *)

Section Properties.
Import Effects Gateway Outcome.



(** C2 as stated fails on the earlier version, [src/unnamed/part_000]:
    for a camera that answers a GET request for [/api/stream], the
    [onProxyRes] of its stream route leaves [Cache-Control] at
    [no-cache] and sets neither [Pragma] nor [Expires]; and the request
    gets no answer at all. *)
Lemma stream_headers_counterexample :
  let headers := ProxyRes.headers (Proxy.proxyRes Part000.stream Samples.jpeg) in
  JsObject.get "Cache-Control" headers = Some "no-cache" /\
  JsObject.get "Pragma" headers = None /\
  JsObject.get "Expires" headers = None /\
  exists p',
    App.serve (Samples.network (Responds Samples.jpeg Samples.frames))
      (Samples.get "/api/stream") (App.listen Part000.app)
    = Some (p', None).
Proof.
  repeat (split; [reflexivity|]). eexists. reflexivity.
Qed.

(** C2, amended.  In [src/index.js], whenever the camera answers a GET
    or HEAD request for [/api/stream] (completely, or with its head and
    some chunks so far), the response to the client has Content-Type
    [multipart/x-mixed-replace; boundary=123456789000000000000987654321]
    and the headers [Cache-Control: no-cache, no-store, must-revalidate],
    [Pragma: no-cache], [Expires: 0] and
    [Access-Control-Allow-Origin: *], whatever headers the camera sent.
    In the earlier version the [onProxyRes] of the stream route assigns
    only [Content-Type] (the same value), [Access-Control-Allow-Origin]
    ([*]) and [Cache-Control] ([no-cache]) to the headers of the
    camera's answer; [Pragma], [Expires] and every other header stay as
    the camera sent them. *)
Theorem stream_headers_by_version (env : Env) (req : Req.t) (p : App.Process)
    (closed : bool) (head : ProxyRes.t) (chunks : list Http.chunk) :
  running Current p ->
  Express.get_accepts (Req.method req) = true ->
  JsString.pathname (Req.url req) = "/api/stream" ->
  JsObject.lowerCaseKeys (ProxyRes.headers head) = true ->
  (forall up, Outgoing.target up = camera Current ->
              net env up = answer closed head chunks) ->
  (exists p' x,
     App.serve env req p = Some (p', Some x) /\
     Res.getHeader "Content-Type" (App.response x)
     = Some "multipart/x-mixed-replace; boundary=123456789000000000000987654321" /\
     Res.getHeader "Cache-Control" (App.response x)
     = Some "no-cache, no-store, must-revalidate" /\
     Res.getHeader "Pragma" (App.response x) = Some "no-cache" /\
     Res.getHeader "Expires" (App.response x) = Some "0" /\
     Res.getHeader "Access-Control-Allow-Origin" (App.response x) = Some "*") /\
  (let earlier := ProxyRes.headers (Proxy.proxyRes Part000.stream head) in
   JsObject.get "Content-Type" earlier
   = Some "multipart/x-mixed-replace; boundary=123456789000000000000987654321" /\
   JsObject.get "Access-Control-Allow-Origin" earlier = Some "*" /\
   JsObject.get "Cache-Control" earlier = Some "no-cache" /\
   forall k,
     k <> "Content-Type" -> k <> "Access-Control-Allow-Origin" ->
     k <> "Cache-Control" ->
     JsObject.get k earlier = JsObject.get k (ProxyRes.headers head)).
Proof.
  intros Hrun Hm Hp Hl Hnet. split.
  - assert (In "stream" (proxiedNames Current)) as Hn by (simpl; tauto).
    rewrite (serve_proxied Current "stream" env req p Hrun Hn Hm Hp).
    rewrite Hnet by reflexivity.
    do 2 eexists. split; [reflexivity|]. cbn [App.response].
    rewrite !relayed_header by (vm_compute; discriminate). unfold Proxy.headed.
    change (proxyFor Current "stream") with Index.stream.
    rewrite (stream_proxyRes_headers head Hl), writeHeaders_app.
    set (r := Proxy.writeHeaders (ProxyRes.headers head) _).
    unfold Proxy.writeHeaders. cbn [fold_left fst snd].
    repeat split; header_lookup.
  - cbv zeta.
    change (ProxyRes.headers (Proxy.proxyRes Part000.stream head))
      with (JsObject.set "Cache-Control" "no-cache"
             (JsObject.set "Access-Control-Allow-Origin" "*"
               (JsObject.set "Content-Type"
                  "multipart/x-mixed-replace; boundary=123456789000000000000987654321"
                  (ProxyRes.headers head)))).
    split.
    { rewrite !get_set_other by discriminate. apply get_set_same. }
    split.
    { rewrite get_set_other by discriminate. apply get_set_same. }
    split; [apply get_set_same|].
    intros k H1 H2 H3. now rewrite !get_set_other by assumption.
Qed.

Lemma stream_headers_by_version_witness :
  (exists p' x,
     App.serve (Samples.network (Streaming Samples.jpeg Samples.frames))
       (Samples.get "/api/stream") (App.listen Index.app)
     = Some (p', Some x) /\
     Res.getHeader "Content-Type" (App.response x)
     = Some "multipart/x-mixed-replace; boundary=123456789000000000000987654321" /\
     Res.getHeader "Cache-Control" (App.response x)
     = Some "no-cache, no-store, must-revalidate" /\
     Res.getHeader "Pragma" (App.response x) = Some "no-cache" /\
     Res.getHeader "Expires" (App.response x) = Some "0" /\
     Res.getHeader "Access-Control-Allow-Origin" (App.response x) = Some "*") /\
  (let earlier := ProxyRes.headers (Proxy.proxyRes Part000.stream Samples.jpeg) in
   JsObject.get "Content-Type" earlier
   = Some "multipart/x-mixed-replace; boundary=123456789000000000000987654321" /\
   JsObject.get "Access-Control-Allow-Origin" earlier = Some "*" /\
   JsObject.get "Cache-Control" earlier = Some "no-cache" /\
   forall k,
     k <> "Content-Type" -> k <> "Access-Control-Allow-Origin" ->
     k <> "Cache-Control" ->
     JsObject.get k earlier = JsObject.get k (ProxyRes.headers Samples.jpeg)).
Proof.
  apply (stream_headers_by_version
           (Samples.network (Streaming Samples.jpeg Samples.frames))
           (Samples.get "/api/stream") (App.listen Index.app)
           false Samples.jpeg Samples.frames).
  - split; reflexivity.
  - reflexivity.
  - reflexivity.
  - reflexivity.
  - reflexivity.
Defined.

(** C3.  In [src/index.js], when the upstream of a proxied route cannot
    be reached (the connection fails or times out), the client of a GET
    request gets status 500; on the sensor route and on every command route the body
    is a JSON object with a string under [error], on [/api/stream] it is
    a text; the process stays up and answers the requests that
    follow. *)
Theorem unreachable_upstream_500 (name : string) (env : Env) (req : Req.t)
    (p : App.Process) (code : Http.Errno) :
  running Current p ->
  In name (proxiedNames Current) ->
  Req.method req = Http.GET ->
  JsString.pathname (Req.url req) = "/api/" ++ name ->
  (forall up, Outgoing.target up = upstreamOf Current name ->
              net env up = Unreachable code) ->
  exists p' x,
    App.serve env req p = Some (p', Some x) /\
    Res.statusCode (App.response x) = 500 /\
    Res.finished (App.response x) = true /\
    (if String.eqb name "stream"
     then exists s, Res.body (App.response x) = [Http.Text s]
     else exists ms s,
            Res.body (App.response x) = [Http.Encoded (Http.JObject ms)] /\
            Http.member "error" ms = Some (Http.JString s)) /\
    running Current p' /\
    forall env' req', exists p'' x',
      App.serve env' req' p' = Some (p'', Some x').
Proof.
  intros Hrun Hin Hg Hp Hnet.
  assert (Express.get_accepts (Req.method req) = true) as Hm by now rewrite Hg.
  rewrite (serve_proxied Current name env req p Hrun Hin Hm Hp).
  assert (Outgoing.target (Proxy.setupOutgoing (proxyFor Current name) req)
          = upstreamOf Current name) as Ht.
  { simpl in Hin.
    repeat (destruct Hin as [<- | Hin]; [reflexivity|]). destruct Hin. }
  rewrite (Hnet _ Ht). rewrite Hg.
  do 2 eexists. split; [reflexivity|]. cbn [App.response settledRes].
  split; [reflexivity|].
  split; [reflexivity|].
  split.
  - simpl in Hin.
    repeat (destruct Hin as [<- | Hin];
            [simpl; repeat eexists; reflexivity|]).
    destruct Hin.
  - assert (running Current
              {| App.table := app Current; App.alive := true;
                 App.stderr := (App.stderr p
                   ++ settledLog (failureLog Current name) (Unreachable code))%list;
                 App.hpm := (App.hpm p ++ settledReports (Unreachable code))%list |})
      as Hrun' by (split; reflexivity).
    split; [exact Hrun'|].
    intros env' req'.
    destruct (index_serves env' req' _ Hrun') as (p'' & x' & E & _).
    now exists p'', x'.
Qed.

Lemma unreachable_upstream_500_witness :
  exists p' x,
    App.serve (Samples.network (Unreachable Http.ETIMEDOUT))
      (Samples.get "/api/sensor") (App.listen Index.app)
    = Some (p', Some x) /\
    Res.statusCode (App.response x) = 500 /\
    Res.finished (App.response x) = true /\
    (exists ms s,
       Res.body (App.response x) = [Http.Encoded (Http.JObject ms)] /\
       Http.member "error" ms = Some (Http.JString s)) /\
    running Current p' /\
    forall env' req', exists p'' x',
      App.serve env' req' p' = Some (p'', Some x').
Proof.
  apply (unreachable_upstream_500 "sensor"
           (Samples.network (Unreachable Http.ETIMEDOUT))
           (Samples.get "/api/sensor") (App.listen Index.app) Http.ETIMEDOUT).
  - split; reflexivity.
  - simpl. tauto.
  - reflexivity.
  - reflexivity.
  - reflexivity.
Defined.

(** C4.  The earlier version, [src/unnamed/part_000], breaks the claim:
    its stream route hands what the middleware returns to [req.pipe],
    so a GET or HEAD request for [/api/stream] brings the process down,
    whatever the camera does; the client is relayed nothing, and no
    request that follows is answered.  ([src/index.js] relays as
    claimed: [stream_relayed_chunkwise] below.) *)
Theorem earlier_stream_brings_process_down (env : Env) (req : Req.t)
    (p : App.Process) :
  running Earlier p ->
  Express.get_accepts (Req.method req) = true ->
  JsString.pathname (Req.url req) = "/api/stream" ->
  exists p',
    App.serve env req p = Some (p', None) /\
    App.alive p' = false /\
    forall env' req', App.serve env' req' p' = Some (p', None).
Proof.
  intros Hrun Hm Hp.
  rewrite (earlier_stream_dies env req p Hrun Hm Hp).
  eexists. split; [reflexivity|]. split; reflexivity.
Qed.

Lemma earlier_stream_brings_process_down_witness :
  exists p',
    App.serve (Samples.network (sentSoFar Samples.jpeg Samples.frames 1))
      (Samples.get "/api/stream") (App.listen Part000.app) = Some (p', None) /\
    App.alive p' = false /\
    forall env' req', App.serve env' req' p' = Some (p', None).
Proof.
  apply (earlier_stream_brings_process_down
           (Samples.network (sentSoFar Samples.jpeg Samples.frames 1))
           (Samples.get "/api/stream") (App.listen Part000.app)).
  - split; reflexivity.
  - reflexivity.
  - reflexivity.
Defined.

(** The stream route of [src/index.js] does what the earlier one was
    meant to do: when the camera has [chunks] to send in answer to a
    GET request for [/api/stream] and has sent the first [k] of them,
    the client has been written exactly those [k] chunks, in order: the
    first chunk is out while the rest has not arrived, and after the
    last chunk the client has all the bytes and the response is
    ended. *)
Lemma stream_relayed_chunkwise (env : Env) (req : Req.t) (p : App.Process)
    (head : ProxyRes.t) (chunks : list Http.chunk) (k : nat) :
  running Current p ->
  Req.method req = Http.GET ->
  JsString.pathname (Req.url req) = "/api/stream" ->
  k <= length chunks ->
  (forall up, Outgoing.target up = camera Current ->
              net env up = sentSoFar head chunks k) ->
  exists p' x,
    App.serve env req p = Some (p', Some x) /\
    Res.body (App.response x) = map Http.Buffer (firstn k chunks) /\
    Res.received (Res.body (App.response x)) = concat (firstn k chunks) /\
    Res.finished (App.response x) = (length chunks <=? k)%nat /\
    (k = length chunks ->
     Res.received (Res.body (App.response x)) = concat chunks).
Proof.
  intros Hrun Hg Hp Hk Hnet.
  assert (Express.get_accepts (Req.method req) = true) as Hm by now rewrite Hg.
  assert (In "stream" (proxiedNames Current)) as Hn by (simpl; tauto).
  rewrite (serve_proxied Current "stream" env req p Hrun Hn Hm Hp).
  rewrite Hnet by reflexivity. unfold sentSoFar.
  do 2 eexists. split; [reflexivity|]. cbn [App.response].
  rewrite Hg. rewrite relayed_body, relayed_finished by reflexivity.
  cbn [afterCors res Res.body Res.setHeader Res.fresh app].
  split; [reflexivity|].
  split; [apply received_buffers|].
  split.
  - rewrite Nat.ltb_antisym. now rewrite negb_involutive.
  - intros ->. rewrite firstn_all. apply received_buffers.
Qed.

Lemma stream_relayed_chunkwise_witness :
  exists p' x,
    App.serve (Samples.network (sentSoFar Samples.jpeg Samples.frames 1))
      (Samples.get "/api/stream") (App.listen Index.app)
    = Some (p', Some x) /\
    Res.body (App.response x) = map Http.Buffer (firstn 1 Samples.frames) /\
    Res.received (Res.body (App.response x)) = concat (firstn 1 Samples.frames) /\
    Res.finished (App.response x) = (length Samples.frames <=? 1)%nat /\
    (1 = length Samples.frames ->
     Res.received (Res.body (App.response x)) = concat Samples.frames).
Proof.
  apply (stream_relayed_chunkwise
           (Samples.network (sentSoFar Samples.jpeg Samples.frames 1))
           (Samples.get "/api/stream") (App.listen Index.app)
           Samples.jpeg Samples.frames 1).
  - split; reflexivity.
  - reflexivity.
  - reflexivity.
  - simpl. lia.
  - reflexivity.
Defined.

(** C5.  For every command route, in both versions, the controller's
    answer to a GET request is relayed with its status code and its
    body, and the
    response carries [Access-Control-Allow-Origin: *] whatever headers
    the controller sent. *)
Theorem command_response_relayed (v : Version) (c : string) (env : Env)
    (req : Req.t) (p : App.Process) (head : ProxyRes.t)
    (chunks : list Http.chunk) :
  running v p ->
  In c (commands v) ->
  Req.method req = Http.GET ->
  JsString.pathname (Req.url req) = "/api/" ++ c ->
  JsObject.lowerCaseKeys (ProxyRes.headers head) = true ->
  (forall up, Outgoing.target up = controller v ->
              net env up = Responds head chunks) ->
  exists p' x,
    App.serve env req p = Some (p', Some x) /\
    Res.statusCode (App.response x) = ProxyRes.statusCode head /\
    Res.body (App.response x) = map Http.Buffer chunks /\
    Res.received (Res.body (App.response x)) = concat chunks /\
    Res.finished (App.response x) = true /\
    Res.getHeader "Access-Control-Allow-Origin" (App.response x) = Some "*".
Proof.
  intros Hrun Hin Hg Hp Hl Hnet.
  assert (Express.get_accepts (Req.method req) = true) as Hm by now rewrite Hg.
  destruct (commands_proxied v c Hin) as (Hn & Ho & _).
  rewrite (serve_proxied v c env req p Hrun Hn Hm Hp). rewrite Ho.
  rewrite Hnet by (destruct v; reflexivity).
  do 2 eexists. split; [reflexivity|]. cbn [App.response].
  change (Responds head chunks) with (answer true head chunks).
  rewrite Hg.
  rewrite relayed_status, relayed_body, relayed_header
    by first [destruct v; reflexivity | vm_compute; discriminate].
  rewrite relayed_finished by (destruct v; reflexivity).
  assert (ProxyRes.headers (Proxy.proxyRes (commandProxy v c) head)
          = (ProxyRes.headers head ++ [("Access-Control-Allow-Origin", "*")])%list)
    as Hh.
  { destruct v; simpl; apply assign_first; try assumption;
      vm_compute; discriminate. }
  replace (Res.body (res (afterCors (app v) Http.GET))) with (@nil Http.Payload)
    by (destruct v; reflexivity).
  split; [destruct v; reflexivity|].
  split; [reflexivity|].
  split; [apply received_buffers|].
  split; [reflexivity|].
  unfold Proxy.headed. rewrite Hh, writeHeaders_app. simpl.
  now apply getHeader_setHeader_same.
Qed.

Lemma command_response_relayed_witness :
  exists p' x,
    App.serve (Samples.network (Responds Samples.jpeg Samples.frames))
      (Samples.get "/api/valve1_on") (App.listen Part000.app)
    = Some (p', Some x) /\
    Res.statusCode (App.response x) = 200 /\
    Res.body (App.response x) = map Http.Buffer Samples.frames /\
    Res.received (Res.body (App.response x)) = concat Samples.frames /\
    Res.finished (App.response x) = true /\
    Res.getHeader "Access-Control-Allow-Origin" (App.response x) = Some "*".
Proof.
  apply (command_response_relayed Earlier "valve1_on"
           (Samples.network (Responds Samples.jpeg Samples.frames))
           (Samples.get "/api/valve1_on") (App.listen Part000.app)
           Samples.jpeg Samples.frames).
  - split; reflexivity.
  - simpl. tauto.
  - reflexivity.
  - reflexivity.
  - reflexivity.
  - reflexivity.
Defined.

(** C6.  In both versions a GET request to [/api/status] is answered with
    status 200 and a JSON object that has ["OK"] under [status] and the
    two configured addresses under [car_ip] and [cam_ip]; nothing is
    sent upstream, the process is left as it was, and the answer does
    not depend on what the network does. *)
Theorem status_always_ok (v : Version) (env : Env) (req : Req.t)
    (p : App.Process) :
  running v p ->
  Req.method req = Http.GET ->
  JsString.pathname (Req.url req) = "/api/status" ->
  exists x ms,
    App.serve env req p = Some (p, Some x) /\
    App.sent x = [] /\
    Res.statusCode (App.response x) = 200 /\
    Res.finished (App.response x) = true /\
    Res.body (App.response x) = [Http.Encoded (Http.JObject ms)] /\
    Http.member "status" ms = Some (Http.JString "OK") /\
    Http.member "timestamp" ms = Some (Http.JString (now env)) /\
    Http.member "car_ip" ms = Some (Http.JString (ESP_CAR_IP v)) /\
    Http.member "cam_ip" ms = Some (Http.JString (ESP_CAM_IP v)).
Proof.
  intros Hrun Hg Hp.
  assert (Express.get_accepts (Req.method req) = true) as Hm by now rewrite Hg.
  assert (App.lookup (App.routes (app v)) (Req.method req)
            (JsString.pathname (Req.url req))
          = Some (App.get "/api/status"
                    (App.Callback match v with
                                  | Current => Index.status
                                  | Earlier => Part000.status
                                  end))) as Hl.
  { rewrite Hp. destruct v; simpl; rewrite Hm; reflexivity. }
  rewrite (serve_callback v p env req _ _ Hrun Hm Hl).
  destruct Hrun as [Ht Ha]. destruct p as [t a e h]. simpl in Ht, Ha. subst t a.
  rewrite Hg. destruct v; simpl; rewrite !app_nil_r;
    do 2 eexists; (split; [reflexivity|]); simpl; repeat split.
Qed.

Lemma status_always_ok_witness :
  exists x ms,
    App.serve (Samples.network (Unreachable Http.EHOSTUNREACH))
      (Samples.get "/api/status") (App.listen Index.app)
    = Some (App.listen Index.app, Some x) /\
    App.sent x = [] /\
    Res.statusCode (App.response x) = 200 /\
    Res.finished (App.response x) = true /\
    Res.body (App.response x) = [Http.Encoded (Http.JObject ms)] /\
    Http.member "status" ms = Some (Http.JString "OK") /\
    Http.member "timestamp" ms
    = Some (Http.JString "2025-01-01T00:00:00.000Z") /\
    Http.member "car_ip" ms = Some (Http.JString "192.168.4.1") /\
    Http.member "cam_ip" ms = Some (Http.JString "192.168.225.143").
Proof.
  apply (status_always_ok Current
           (Samples.network (Unreachable Http.EHOSTUNREACH))
           (Samples.get "/api/status") (App.listen Index.app)).
  - split; reflexivity.
  - reflexivity.
  - reflexivity.
Defined.

(** C7 as stated fails on [src/index.js]: the sensor route is proxied,
    its options bound neither [timeout] nor [proxyTimeout], and when the
    controller accepts the request and never answers, nothing is ever
    written to the client. *)
Lemma bounded_timeouts_counterexample :
  In Index.sensor (proxied Index.app) /\
  ~ boundedTimeouts Index.sensor /\
  exists p' x,
    App.serve (Samples.network Hangs) (Samples.get "/api/sensor")
      (App.listen Index.app) = Some (p', Some x) /\
    Res.headersSent (App.response x) = false /\
    Res.body (App.response x) = [] /\
    Res.finished (App.response x) = false /\
    Res.destroyed (App.response x) = false.
Proof.
  split; [simpl; tauto|].
  split.
  - intros [[t Ht] _]. discriminate Ht.
  - do 2 eexists. split; [reflexivity|]. repeat split.
Qed.

(** C7, amended.  No proxied route configures a timeout: in both
    versions every options literal leaves [timeout] and [proxyTimeout]
    undefined.  On every proxied route of [src/index.js], and on the
    sensor and command routes of the earlier version, when the upstream
    accepts the request and never answers, the gateway has sent its one
    request, the response stays as it was, unwritten and open, and the
    process stays up. *)
Theorem no_timeout_configured (v : Version) (name : string) (env : Env)
    (req : Req.t) (p : App.Process) :
  running v p ->
  In name (proxiedNames v) ->
  Express.get_accepts (Req.method req) = true ->
  JsString.pathname (Req.url req) = "/api/" ++ name ->
  (forall up, Outgoing.target up = upstreamOf v name -> net env up = Hangs) ->
  (forall o, In o (proxied (app v)) ->
     Proxy.timeout o = None /\ Proxy.proxyTimeout o = None) /\
  exists p' x up,
    App.serve env req p = Some (p', Some x) /\
    App.sent x = [up] /\
    Res.headersSent (App.response x) = false /\
    Res.body (App.response x) = [] /\
    Res.finished (App.response x) = false /\
    Res.destroyed (App.response x) = false /\
    running v p'.
Proof.
  intros Hrun Hin Hm Hp Hnet. split.
  - intros o Ho. destruct v; simpl in Ho;
      repeat (destruct Ho as [<- | Ho]; [split; reflexivity|]); destruct Ho.
  - rewrite (serve_proxied v name env req p Hrun Hin Hm Hp).
    assert (Outgoing.target (Proxy.setupOutgoing (proxyFor v name) req)
            = upstreamOf v name) as Ht.
    { destruct v; simpl in Hin;
        repeat (destruct Hin as [<- | Hin]; [reflexivity|]); destruct Hin. }
    rewrite (Hnet _ Ht).
    do 3 eexists. split; [reflexivity|]. cbn [App.sent App.response settledRes].
    split; [reflexivity|].
    destruct v; repeat split.
Qed.

Lemma no_timeout_configured_witness :
  (forall o, In o (proxied (app Current)) ->
     Proxy.timeout o = None /\ Proxy.proxyTimeout o = None) /\
  exists p' x up,
    App.serve (Samples.network Hangs) (Samples.get "/api/stream")
      (App.listen Index.app) = Some (p', Some x) /\
    App.sent x = [up] /\
    Res.headersSent (App.response x) = false /\
    Res.body (App.response x) = [] /\
    Res.finished (App.response x) = false /\
    Res.destroyed (App.response x) = false /\
    running Current p'.
Proof.
  apply (no_timeout_configured Current "stream" (Samples.network Hangs)
           (Samples.get "/api/stream") (App.listen Index.app)).
  - split; reflexivity.
  - simpl. tauto.
  - reflexivity.
  - reflexivity.
  - reflexivity.
Defined.

(** C8.  In both versions, every request the gateway sends upstream
    carries the host of its own target under [host]: no entry of the
    outgoing headers whose name is [host] in any letter case has another
    value, so the [Host] the client sent is not passed on; that target
    is the controller or the camera; and every options literal of a
    proxied route sets [changeOrigin]. *)
Theorem host_is_the_upstreams (v : Version) (env : Env) (req : Req.t)
    (p p' : App.Process) (x : App.Exchange) (up : Outgoing.t) :
  running v p ->
  JsObject.lowerCaseKeys (Req.headers req) = true ->
  App.serve env req p = Some (p', Some x) ->
  In up (App.sent x) ->
  JsObject.get "host" (Outgoing.headers up) = Some (Proxy.host (Outgoing.target up)) /\
  (forall k value, In (k, value) (Outgoing.headers up) ->
     JsString.toLowerCase k = "host" ->
     value = Proxy.host (Outgoing.target up)) /\
  (Proxy.host (Outgoing.target up) = ESP_CAR_IP v \/
   Proxy.host (Outgoing.target up) = ESP_CAM_IP v) /\
  (forall o, In o (proxied (app v)) -> Proxy.changeOrigin o = true).
Proof.
  intros Hrun Hl Hs Hup.
  assert (forall o, In o (proxied (app v)) -> Proxy.changeOrigin o = true) as Hall.
  { intros o Ho. destruct v; simpl in Ho;
      repeat (destruct Ho as [<- | Ho]; [reflexivity|]); destruct Ho. }
  destruct (served_sent v env req p p' x Hrun Hs) as [E | (name & Hn & E)];
    rewrite E in Hup; [destruct Hup|].
  destruct Hup as [<- | []].
  assert (Proxy.changeOrigin (proxyFor v name) = true) as Hc.
  { destruct v; simpl in Hn;
      repeat (destruct Hn as [<- | Hn]; [reflexivity|]); destruct Hn. }
  assert (Proxy.host (Proxy.target (proxyFor v name)) = ESP_CAR_IP v \/
          Proxy.host (Proxy.target (proxyFor v name)) = ESP_CAM_IP v) as Hh.
  { destruct v; simpl in Hn;
      repeat (destruct Hn as [<- | Hn];
              [first [left; reflexivity | right; reflexivity]|]);
      destruct Hn. }
  cbn [Proxy.setupOutgoing Outgoing.headers Outgoing.target].
  unfold Proxy.outgoingHeaders. rewrite Hc.
  split; [apply get_set_same|]. split; [|split; [exact Hh|exact Hall]].
  intros k value Hin Hk.
  destruct (set_keys _ _ _ _ _ Hin) as [-> | Hold].
  - now apply set_all in Hin.
  - destruct (closeConnection_keys _ _ _ Hold) as [-> | Hreq];
      [discriminate Hk|].
    unfold JsObject.lowerCaseKeys in Hl. rewrite forallb_forall in Hl.
    specialize (Hl _ Hreq). simpl in Hl. apply String.eqb_eq in Hl.
    rewrite Hk in Hl. subst k. now apply set_all in Hin.
Qed.

Lemma host_is_the_upstreams_witness :
  JsObject.get "host"
    (Outgoing.headers (Proxy.setupOutgoing Index.stream (Samples.get "/api/stream")))
  = Some "192.168.225.143" /\
  (forall k value,
     In (k, value)
       (Outgoing.headers (Proxy.setupOutgoing Index.stream (Samples.get "/api/stream"))) ->
     JsString.toLowerCase k = "host" -> value = "192.168.225.143") /\
  ("192.168.225.143" = ESP_CAR_IP Current \/ "192.168.225.143" = ESP_CAM_IP Current) /\
  (forall o, In o (proxied (app Current)) -> Proxy.changeOrigin o = true).
Proof.
  apply (host_is_the_upstreams Current (Samples.network Hangs)
           (Samples.get "/api/stream") (App.listen Index.app)
           {| App.table := Index.app; App.alive := true; App.stderr := [];
              App.hpm := [] |}
           {| App.sent := [Proxy.setupOutgoing Index.stream (Samples.get "/api/stream")];
              App.response := res (afterCors Index.app Http.GET) |}
           (Proxy.setupOutgoing Index.stream (Samples.get "/api/stream"))).
  - split; reflexivity.
  - reflexivity.
  - reflexivity.
  - simpl. tauto.
Defined.

(** C9.  In both versions the route table built at startup has
    pairwise distinct public paths - status, sensor, the five motor
    commands, the four valve commands, stream and the root page - and
    every proxied entry targets the controller or the camera; serving
    requests never changes the table, so this holds after any run. *)
Theorem route_table_invariant (v : Version) (inputs : list (Env * Req.t))
    (p p' : App.Process) (xs : list (option App.Exchange)) :
  App.table p = app v ->
  App.run inputs p = Some (p', xs) ->
  App.table p' = app v /\
  publicPaths (App.table p')
  = ["/api/status"; "/api/sensor";
     "/api/forward"; "/api/backward"; "/api/left"; "/api/right"; "/api/stop";
     "/api/valve1_on"; "/api/valve1_off"; "/api/valve2_on"; "/api/valve2_off";
     "/api/stream"; "/"] /\
  NoDup (publicPaths (App.table p')) /\
  NoDup (map JsString.toLowerCase (publicPaths (App.table p'))) /\
  (forall o, In o (proxied (App.table p')) ->
     Proxy.host (Proxy.target o) = ESP_CAR_IP v \/
     Proxy.host (Proxy.target o) = ESP_CAM_IP v).
Proof.
  intros Ht Hr. rewrite (run_table _ _ _ _ Hr), Ht.
  split; [reflexivity|].
  split; [destruct v; reflexivity|].
  split; [|split].
  - destruct v;
      repeat (constructor; [simpl; intuition discriminate|]); constructor.
  - destruct v;
      repeat (constructor; [vm_compute; intuition discriminate|]); constructor.
  - intros o Ho. destruct v; simpl in Ho;
      repeat (destruct Ho as [<- | Ho];
              [first [left; reflexivity | right; reflexivity]|]);
      destruct Ho.
Qed.

Lemma route_table_invariant_witness :
  App.table (fst Samples.served) = app Current /\
  publicPaths (App.table (fst Samples.served))
  = ["/api/status"; "/api/sensor";
     "/api/forward"; "/api/backward"; "/api/left"; "/api/right"; "/api/stop";
     "/api/valve1_on"; "/api/valve1_off"; "/api/valve2_on"; "/api/valve2_off";
     "/api/stream"; "/"] /\
  NoDup (publicPaths (App.table (fst Samples.served))) /\
  NoDup (map JsString.toLowerCase (publicPaths (App.table (fst Samples.served)))) /\
  (forall o, In o (proxied (App.table (fst Samples.served))) ->
     Proxy.host (Proxy.target o) = ESP_CAR_IP Current \/
     Proxy.host (Proxy.target o) = ESP_CAM_IP Current).
Proof.
  apply (route_table_invariant Current Samples.session (App.listen Index.app)
           (fst Samples.served) (snd Samples.served)).
  - reflexivity.
  - reflexivity.
Defined.

(** C10.  On every motor and valve route the two versions do the same
    for the same request and the same upstream behaviour: the same
    request goes upstream (same path rewrite), the same response goes to
    the client (the same injected [Access-Control-Allow-Origin: *] on
    success, the same status 500 and JSON error body on failure), and
    the process stays up in both; only [src/index.js] writes to the
    console, and only on failure. *)
Theorem versions_agree_on_commands (c : string) (env : Env) (req : Req.t)
    (p1 p2 : App.Process) :
  running Current p1 ->
  running Earlier p2 ->
  In c (commands Current) ->
  Express.get_accepts (Req.method req) = true ->
  JsString.pathname (Req.url req) = "/api/" ++ c ->
  exists p1' p2' x,
    App.serve env req p1 = Some (p1', Some x) /\
    App.serve env req p2 = Some (p2', Some x) /\
    App.alive p1' = App.alive p2' /\
    App.stderr p2' = App.stderr p2 /\
    (forall up, App.sent x = [up] ->
      App.stderr p1'
      = (App.stderr p1
         ++ match net env up with
            | Unreachable code =>
                [((c ++ " proxy error:")%string, Http.NetworkError code)]
            | _ => []
            end)%list).
Proof.
  intros Hrun1 Hrun2 Hin Hm Hp.
  destruct (commands_proxied Current c Hin) as (Hn1 & _ & _).
  assert (In c (commands Earlier)) as Hin2 by exact Hin.
  destruct (commands_proxied Earlier c Hin2) as (Hn2 & _ & _).
  rewrite (serve_proxied Current c env req p1 Hrun1 Hn1 Hm Hp).
  rewrite (serve_proxied Earlier c env req p2 Hrun2 Hn2 Hm Hp).
  assert (Proxy.setupOutgoing (proxyFor Earlier c) req
          = Proxy.setupOutgoing (proxyFor Current c) req) as ->.
  { simpl in Hin.
    repeat (destruct Hin as [<- | Hin]; [reflexivity|]). destruct Hin. }
  set (up := net env (Proxy.setupOutgoing (proxyFor Current c) req)).
  assert (settledRes (proxyFor Earlier c) req (failureBody c) up
            (res (afterCors (app Earlier) (Req.method req)))
          = settledRes (proxyFor Current c) req (failureBody c) up
              (res (afterCors (app Current) (Req.method req)))) as ->.
  { simpl in Hin.
    repeat (destruct Hin as [<- | Hin]; [destruct up; reflexivity|]).
    destruct Hin. }
  do 3 eexists.
  split; [reflexivity|]. split; [reflexivity|]. cbn [App.alive App.stderr App.sent].
  split; [reflexivity|].
  split.
  - unfold failureLog. destruct up; simpl; apply app_nil_r.
  - intros u Hu. injection Hu as <-. fold up.
    assert (failureLog Current c = Some (c ++ " proxy error:")) as ->.
    { simpl in Hin.
      repeat (destruct Hin as [<- | Hin]; [reflexivity|]). destruct Hin. }
    destruct up; reflexivity.
Qed.

Lemma versions_agree_on_commands_witness :
  exists p1' p2' x,
    App.serve (Samples.network (Unreachable Http.ECONNREFUSED))
      (Samples.get "/api/stop") (App.listen Index.app) = Some (p1', Some x) /\
    App.serve (Samples.network (Unreachable Http.ECONNREFUSED))
      (Samples.get "/api/stop") (App.listen Part000.app) = Some (p2', Some x) /\
    App.alive p1' = App.alive p2' /\
    App.stderr p2' = [] /\
    (forall up, App.sent x = [up] ->
      App.stderr p1'
      = [("stop proxy error:", Http.NetworkError Http.ECONNREFUSED)]).
Proof.
  apply (versions_agree_on_commands "stop"
           (Samples.network (Unreachable Http.ECONNREFUSED))
           (Samples.get "/api/stop")
           (App.listen Index.app) (App.listen Part000.app)).
  - split; reflexivity.
  - split; reflexivity.
  - simpl. tauto.
  - reflexivity.
  - reflexivity.
Defined.

End Properties.

(* ------------------------------------------------------------------ *)
(** ** Further properties of the two files *)

Section Coverage.
Import Effects Gateway Outcome Platform.







(** X4.  A preflight is answered by the CORS middleware alone: in both
    versions an OPTIONS request for any path gets status 204 with
    [Access-Control-Allow-Origin: *], the configured methods and headers
    and an empty body; no route runs, nothing is sent upstream and the
    process is left as it was. *)
Theorem preflight_answered_locally (v : Version) (env : Env) (req : Req.t)
    (p : App.Process) :
  running v p ->
  Req.method req = Http.OPTIONS ->
  exists x,
    App.serve env req p = Some (p, Some x) /\
    App.sent x = [] /\
    Res.statusCode (App.response x) = 204 /\
    Res.getHeader "Access-Control-Allow-Origin" (App.response x) = Some "*" /\
    Res.getHeader "Access-Control-Allow-Methods" (App.response x)
    = Some "GET,POST,OPTIONS" /\
    Res.getHeader "Access-Control-Allow-Headers" (App.response x)
    = Some "Content-Type,User-Agent" /\
    Res.getHeader "Content-Length" (App.response x) = Some "0" /\
    Res.body (App.response x) = [] /\
    Res.finished (App.response x) = true.
Proof.
  intros Hrun Hm.
  assert (exists r,
            exec (App.handle (app v) req) env (start (Req.method req))
            = {| console := []; reported := []; outgoing := []; res := r;
                 uncaught := None |} /\
            r = Res.end_
                  (Res.setHeader "Content-Length" "0"
                    (Res.status 204
                      (Res.setHeader "Access-Control-Allow-Headers"
                         "Content-Type,User-Agent"
                        (Res.setHeader "Access-Control-Allow-Methods"
                           "GET,POST,OPTIONS"
                          (Res.setHeader "Access-Control-Allow-Origin" "*"
                            (Res.fresh Http.OPTIONS)))))))
    as (r & He & ->).
  { unfold App.handle, exec, bind, Cors.cors. rewrite Hm.
    destruct v; eexists; split; reflexivity. }
  rewrite (serve_quiet v p env req _ Hrun He).
  eexists. split; [reflexivity|]. repeat (split; [reflexivity|]).
  reflexivity.
Qed.

Lemma preflight_answered_locally_witness :
  exists x,
    App.serve (Samples.network Hangs) (Cases.request Http.OPTIONS "/api/forward")
      (App.listen Index.app) = Some (App.listen Index.app, Some x) /\
    App.sent x = [] /\
    Res.statusCode (App.response x) = 204 /\
    Res.getHeader "Access-Control-Allow-Origin" (App.response x) = Some "*" /\
    Res.getHeader "Access-Control-Allow-Methods" (App.response x)
    = Some "GET,POST,OPTIONS" /\
    Res.getHeader "Access-Control-Allow-Headers" (App.response x)
    = Some "Content-Type,User-Agent" /\
    Res.getHeader "Content-Length" (App.response x) = Some "0" /\
    Res.body (App.response x) = [] /\
    Res.finished (App.response x) = true.
Proof.
  apply (preflight_answered_locally Current (Samples.network Hangs)
           (Cases.request Http.OPTIONS "/api/forward") (App.listen Index.app)).
  - split; reflexivity.
  - reflexivity.
Defined.

(** X5.  Every route is registered with [app.get]: in both versions a
    POST, PUT, DELETE or PATCH request, whatever its path, reaches no
    handler of the source; it is answered 404 by Express with the CORS
    header, nothing is sent upstream and the process is left as it
    was. *)
Theorem other_methods_not_routed (v : Version) (env : Env) (req : Req.t)
    (p : App.Process) :
  running v p ->
  Express.get_accepts (Req.method req) = false ->
  Req.method req <> Http.OPTIONS ->
  exists x,
    App.serve env req p = Some (p, Some x) /\
    App.sent x = [] /\
    Res.statusCode (App.response x) = 404 /\
    Res.body (App.response x) = [Http.ErrorPage] /\
    Res.getHeader "Access-Control-Allow-Origin" (App.response x) = Some "*" /\
    Res.finished (App.response x) = true.
Proof.
  intros Hrun Hm Ho.
  assert (exec (App.handle (app v) req) env (start (Req.method req))
          = {| console := []; reported := []; outgoing := [];
               res := notFound (app v) (Req.method req); uncaught := None |})
    as He.
  { unfold App.handle, exec, bind. rewrite (lookup_rejects _ _ _ Hm).
    unfold Cors.cors.
    destruct v, (Req.method req); try discriminate Hm; try (now elim Ho);
      reflexivity. }
  rewrite (serve_quiet v p env req _ Hrun He).
  eexists. split; [reflexivity|]. cbn [App.sent App.response].
  split; [reflexivity|].
  apply notFound_answer. intros E. rewrite E in Hm. discriminate Hm.
Qed.

Lemma other_methods_not_routed_witness :
  exists x,
    App.serve (Samples.network (Responds Samples.jpeg Samples.frames))
      (Cases.request Http.POST "/api/forward") (App.listen Part000.app)
    = Some (App.listen Part000.app, Some x) /\
    App.sent x = [] /\
    Res.statusCode (App.response x) = 404 /\
    Res.body (App.response x) = [Http.ErrorPage] /\
    Res.getHeader "Access-Control-Allow-Origin" (App.response x) = Some "*" /\
    Res.finished (App.response x) = true.
Proof.
  apply (other_methods_not_routed Earlier
           (Samples.network (Responds Samples.jpeg Samples.frames))
           (Cases.request Http.POST "/api/forward") (App.listen Part000.app)).
  - split; reflexivity.
  - reflexivity.
  - discriminate.
Defined.

(** X6.  In both versions a GET request whose target is in origin form
    without fragment (a slash, then neither [#] nor white space) and
    whose path, the part before the first question mark, matches none
    of the registered paths is answered 404 by Express with the CORS
    header; nothing is sent upstream and the process is left as it
    was. *)
Theorem unknown_path_not_found (v : Version) (env : Env) (req : Req.t)
    (p : App.Process) :
  running v p ->
  Req.method req = Http.GET ->
  JsString.plainTarget (Req.url req) = true ->
  (forall path, In path (publicPaths (app v)) ->
     Express.path_test path (JsString.pathname (Req.url req)) = false) ->
  exists x,
    App.serve env req p = Some (p, Some x) /\
    App.sent x = [] /\
    Res.statusCode (App.response x) = 404 /\
    Res.body (App.response x) = [Http.ErrorPage] /\
    Res.getHeader "Access-Control-Allow-Origin" (App.response x) = Some "*" /\
    Res.finished (App.response x) = true.
Proof.
  intros Hrun Hm _ Hno.
  assert (Express.get_accepts (Req.method req) = true) as Ha
    by now rewrite Hm.
  assert (App.lookup (App.routes (app v)) (Req.method req)
            (JsString.pathname (Req.url req)) = None) as Hl.
  { apply lookup_none. intros r Hr. apply Hno. unfold publicPaths.
    now apply in_map. }
  rewrite (serve_quiet v p env req _ Hrun (handle_unrouted v env req Ha Hl)).
  eexists. split; [reflexivity|]. cbn [App.sent App.response].
  split; [reflexivity|].
  apply notFound_answer. rewrite Hm. discriminate.
Qed.

Lemma unknown_path_not_found_witness :
  exists x,
    App.serve (Samples.network Hangs) (Samples.get "/api/forwards")
      (App.listen Index.app) = Some (App.listen Index.app, Some x) /\
    App.sent x = [] /\
    Res.statusCode (App.response x) = 404 /\
    Res.body (App.response x) = [Http.ErrorPage] /\
    Res.getHeader "Access-Control-Allow-Origin" (App.response x) = Some "*" /\
    Res.finished (App.response x) = true.
Proof.
  apply (unknown_path_not_found Current (Samples.network Hangs)
           (Samples.get "/api/forwards") (App.listen Index.app)).
  - split; reflexivity.
  - reflexivity.
  - reflexivity.
  - intros path Hin. simpl in Hin.
    repeat (destruct Hin as [<- | Hin]; [reflexivity|]). destruct Hin.
Defined.

(** X7.  Whatever a client sends, in both versions one request that is
    answered makes the gateway send at most one request upstream, only
    for GET or HEAD, always to the configured controller or camera
    target and with the client's method.  Every header of the client
    except [host] and [connection] is passed on unchanged; [connection]
    goes out as [close], unless the client's own [connection] header
    asks for an upgrade, in which case it is passed on as well. *)
Theorem upstream_requests_bounded (v : Version) (env : Env) (req : Req.t)
    (p p' : App.Process) (x : App.Exchange) :
  running v p ->
  App.serve env req p = Some (p', Some x) ->
  length (App.sent x) <= 1 /\
  forall up, In up (App.sent x) ->
    Express.get_accepts (Req.method req) = true /\
    (Outgoing.target up = controller v \/ Outgoing.target up = camera v) /\
    Outgoing.method up = Req.method req /\
    (forall k, k <> "host" -> k <> "connection" ->
       JsObject.get k (Outgoing.headers up) = JsObject.get k (Req.headers req)) /\
    JsObject.get "connection" (Outgoing.headers up)
    = match JsObject.get "connection" (Req.headers req) with
      | Some c => if Proxy.upgradeHeader c then Some c else Some "close"
      | None => Some "close"
      end.
Proof.
  intros Hrun Hs.
  destruct (served_full v env req p p' x Hrun Hs)
    as [_ [(E & _) | (name & Hn & Hm & E & _)]]; rewrite E.
  - split; [simpl; lia|]. intros up [].
  - split; [simpl; lia|]. intros up [<- | []].
    split; [exact Hm|].
    destruct (proxied_rewrite v name Hn) as (_ & Ht & _).
    split.
    { cbn [Proxy.setupOutgoing Outgoing.target]. rewrite Ht.
      unfold upstreamOf. destruct (String.eqb name "stream"); auto. }
    split; [reflexivity|].
    cbn [Proxy.setupOutgoing Outgoing.headers].
    unfold Proxy.outgoingHeaders.
    assert (Proxy.changeOrigin (proxyFor v name) = true) as ->.
    { destruct v; simpl in Hn;
        repeat (destruct Hn as [<- | Hn]; [reflexivity|]); destruct Hn. }
    split.
    + intros k Hk Hc. rewrite get_set_other by congruence.
      now apply closeConnection_get.
    + rewrite get_set_other by discriminate.
      unfold Proxy.closeConnection.
      destruct (JsObject.get "connection" (Req.headers req)) as [c|] eqn:G;
        [destruct (Proxy.upgradeHeader c)|];
        first [exact G | apply get_set_same].
Qed.

Lemma upstream_requests_bounded_witness :
  length [Proxy.setupOutgoing Index.stream (Samples.get "/api/stream")] <= 1 /\
  forall up,
    In up [Proxy.setupOutgoing Index.stream (Samples.get "/api/stream")] ->
    Express.get_accepts Http.GET = true /\
    (Outgoing.target up = controller Current \/
     Outgoing.target up = camera Current) /\
    Outgoing.method up = Http.GET /\
    (forall k, k <> "host" -> k <> "connection" ->
       JsObject.get k (Outgoing.headers up) = JsObject.get k Samples.browser) /\
    JsObject.get "connection" (Outgoing.headers up) = Some "close".
Proof.
  apply (upstream_requests_bounded Current (Samples.network Hangs)
           (Samples.get "/api/stream") (App.listen Index.app)
           {| App.table := Index.app; App.alive := true; App.stderr := [];
              App.hpm := [] |}
           {| App.sent := [Proxy.setupOutgoing Index.stream (Samples.get "/api/stream")];
              App.response := res (afterCors Index.app Http.GET) |}).
  - split; reflexivity.
  - reflexivity.
Defined.

(** X8.  No request brings a process running [src/index.js] down:
    whatever requests arrive, and whether the upstream of each cannot be
    reached, stays silent, has answered in part or has answered in full,
    every request of the run is taken up by a process that is up, and
    the process is up at the end.  (Taken up is not answered: while an
    upstream stays silent the response stays open.) *)
Theorem index_never_goes_down (inputs : list (Env * Req.t)) (p : App.Process) :
  running Current p ->
  exists p' xs,
    App.run inputs p = Some (p', xs) /\
    running Current p' /\
    length xs = length inputs /\
    Forall (fun x => x <> None) xs.
Proof.
  revert p. induction inputs as [|[env req] rest IH]; intros p Hrun.
  - exists p, []. split; [reflexivity|]. split; [exact Hrun|].
    split; [reflexivity|constructor].
  - destruct (index_serves env req p Hrun) as (q & x & Hs & Hq).
    destruct (IH q Hq) as (p' & xs & Hr & Hp' & Hlen & Hall).
    exists p', (Some x :: xs). simpl. rewrite Hs, Hr.
    split; [reflexivity|]. split; [exact Hp'|].
    split; [now rewrite Hlen|].
    constructor; [discriminate|exact Hall].
Qed.

Lemma index_never_goes_down_witness :
  exists p' xs,
    App.run Cases.session (App.listen Index.app) = Some (p', xs) /\
    running Current p' /\
    length xs = length Cases.session /\
    Forall (fun x => x <> None) xs.
Proof.
  apply (index_never_goes_down Cases.session (App.listen Index.app)).
  split; reflexivity.
Defined.

(** Every [onProxyRes] of [src/index.js] leaves the CORS header at [*]. *)
Lemma index_injects (name : string) (head : ProxyRes.t) (r : Res.t) :
  In name (proxiedNames Current) ->
  JsObject.lowerCaseKeys (ProxyRes.headers head) = true ->
  Res.getHeader "Access-Control-Allow-Origin"
    (Proxy.headed (Proxy.proxyRes (proxyFor Current name) head) r) = Some "*".
Proof.
  intros Hin Hl. unfold Proxy.headed. simpl in Hin.
  repeat (destruct Hin as [<- | Hin];
          [ first
              [ change (ProxyRes.headers
                          (Proxy.proxyRes (proxyFor Current "stream") head))
                  with (ProxyRes.headers (Proxy.proxyRes Index.stream head));
                rewrite (stream_proxyRes_headers head Hl), writeHeaders_app;
                unfold Proxy.writeHeaders at 1; cbn [fold_left fst snd];
                header_lookup
              | match goal with
                | |- context [Proxy.proxyRes (proxyFor Current ?n) head] =>
                    change (ProxyRes.headers (Proxy.proxyRes (proxyFor Current n) head))
                      with (JsObject.set "Access-Control-Allow-Origin" "*"
                              (ProxyRes.headers head))
                end;
                rewrite (assign_first _ _ _ Hl) by (vm_compute; discriminate);
                rewrite writeHeaders_app; simpl;
                apply getHeader_setHeader_same; reflexivity ]
          | ]).
  destruct Hin.
Qed.

(** X9.  In [src/index.js] every response carries
    [Access-Control-Allow-Origin: *]: the answers of the gateway itself
    (status, root page, 404, preflight, the 500 of a failed upstream) and
    every relayed answer, whatever the upstream sent under that name. *)
Theorem index_cors_everywhere (env : Env) (req : Req.t)
    (p p' : App.Process) (x : App.Exchange) :
  running Current p ->
  parsedAnswers env ->
  App.serve env req p = Some (p', Some x) ->
  Res.getHeader "Access-Control-Allow-Origin" (App.response x) = Some "*".
Proof.
  intros Hrun Hparsed Hs.
  destruct (served_full Current env req p p' x Hrun Hs)
    as [_ [(_ & E & _) | (name & Hn & Hm & _ & E & _)]]; [exact E|].
  rewrite E.
  destruct (net env (Proxy.setupOutgoing (proxyFor Current name) req))
    as [code| |head chunks|head chunks] eqn:N.
  - destruct (accepts_cases _ Hm) as [-> | ->]; reflexivity.
  - destruct (accepts_cases _ Hm) as [-> | ->]; reflexivity.
  - change (Streaming head chunks) with (answer false head chunks).
    rewrite relayed_header by (vm_compute; discriminate).
    apply index_injects; [exact Hn|].
    exact (proj1 (Hparsed _ false head chunks N)).
  - change (Responds head chunks) with (answer true head chunks).
    rewrite relayed_header by (vm_compute; discriminate).
    apply index_injects; [exact Hn|].
    exact (proj1 (Hparsed _ true head chunks N)).
Qed.

Lemma index_cors_everywhere_witness :
  Res.getHeader "Access-Control-Allow-Origin"
    (settledRes Index.sensor (Samples.get "/api/sensor") (failureBody "sensor")
       (Responds Cases.reading Cases.json)
       (res (afterCors Index.app Http.GET))) = Some "*".
Proof.
  apply (index_cors_everywhere (Samples.network (Responds Cases.reading Cases.json))
           (Samples.get "/api/sensor") (App.listen Index.app)
           {| App.table := Index.app; App.alive := true; App.stderr := [];
              App.hpm := [] |}
           {| App.sent := [Proxy.setupOutgoing Index.sensor (Samples.get "/api/sensor")];
              App.response :=
                settledRes Index.sensor (Samples.get "/api/sensor")
                  (failureBody "sensor")
                  (Responds Cases.reading Cases.json)
                  (res (afterCors Index.app Http.GET)) |}).
  - split; reflexivity.
  - intros up closed head chunks H. destruct closed; simpl in H;
      [injection H as <- _|discriminate H].
    split; [reflexivity|].
    repeat (constructor; [simpl; intuition discriminate|]). constructor.
  - reflexivity.
Defined.

(** X10.  The sensor route of the earlier version has no [onProxyRes]:
    when the controller sends its own [Access-Control-Allow-Origin], that
    value reaches the client in place of the [*] of the CORS middleware;
    only when the controller sends none does the client see [*]. *)
Theorem earlier_sensor_cors_passes_through (env : Env) (req : Req.t)
    (p : App.Process) (closed : bool) (head : ProxyRes.t)
    (chunks : list Http.chunk) :
  running Earlier p ->
  Express.get_accepts (Req.method req) = true ->
  JsString.pathname (Req.url req) = "/api/sensor" ->
  parsed (ProxyRes.headers head) ->
  (forall up, Outgoing.target up = controller Earlier ->
              net env up = answer closed head chunks) ->
  exists p' x,
    App.serve env req p = Some (p', Some x) /\
    Res.getHeader "Access-Control-Allow-Origin" (App.response x)
    = match JsObject.get "access-control-allow-origin" (ProxyRes.headers head) with
      | Some value => Some value
      | None => Some "*"
      end.
Proof.
  intros Hrun Hm Hp Hparsed Hnet.
  assert (In "sensor" (proxiedNames Earlier)) as Hn by (simpl; tauto).
  rewrite (serve_proxied Earlier "sensor" env req p Hrun Hn Hm Hp).
  rewrite Hnet by reflexivity.
  do 2 eexists. split; [reflexivity|]. cbn [App.response].
  rewrite relayed_header by (vm_compute; discriminate). unfold Proxy.headed.
  change (Proxy.proxyRes (proxyFor Earlier "sensor") head) with head.
  rewrite (writeHeaders_get _ _ _ Hparsed).
  change (JsString.toLowerCase "Access-Control-Allow-Origin")
    with "access-control-allow-origin".
  destruct (JsObject.get "access-control-allow-origin" (ProxyRes.headers head));
    [reflexivity|].
  destruct (accepts_cases _ Hm) as [-> | ->]; reflexivity.
Qed.

Lemma earlier_sensor_cors_passes_through_witness :
  exists p' x,
    App.serve (Samples.network (Responds Cases.reading Cases.json))
      (Samples.get "/api/sensor") (App.listen Part000.app)
    = Some (p', Some x) /\
    Res.getHeader "Access-Control-Allow-Origin" (App.response x)
    = Some "http://192.168.4.1".
Proof.
  apply (earlier_sensor_cors_passes_through
           (Samples.network (Responds Cases.reading Cases.json))
           (Samples.get "/api/sensor") (App.listen Part000.app)
           true Cases.reading Cases.json).
  - split; reflexivity.
  - reflexivity.
  - reflexivity.
  - split; [reflexivity|].
    repeat (constructor; [simpl; intuition discriminate|]). constructor.
  - reflexivity.
Defined.

(** X11.  On the sensor route and on every command route, in both
    versions, each header the upstream sent with its answer, other than
    [Access-Control-Allow-Origin], [Connection] and [Transfer-Encoding],
    reaches the client with the value the upstream gave it. *)
Theorem upstream_headers_pass_through (v : Version) (name : string)
    (env : Env) (req : Req.t) (p : App.Process) (closed : bool)
    (head : ProxyRes.t) (chunks : list Http.chunk) (n value : string) :
  running v p ->
  In name ("sensor" :: commands v) ->
  Express.get_accepts (Req.method req) = true ->
  JsString.pathname (Req.url req) = "/api/" ++ name ->
  parsed (ProxyRes.headers head) ->
  (forall up, Outgoing.target up = controller v ->
              net env up = answer closed head chunks) ->
  JsString.toLowerCase n <> "access-control-allow-origin" ->
  JsString.toLowerCase n <> "connection" ->
  JsString.toLowerCase n <> "transfer-encoding" ->
  JsObject.get (JsString.toLowerCase n) (ProxyRes.headers head) = Some value ->
  exists p' x,
    App.serve env req p = Some (p', Some x) /\
    Res.getHeader n (App.response x) = Some value.
Proof.
  intros Hrun Hin Hm Hp Hparsed Hnet Hn Hconn Hte Hsent.
  assert (In name (proxiedNames v)) as Hpn.
  { destruct v; simpl in Hin |- *;
      repeat (destruct Hin as [<- | Hin]; [tauto|]); destruct Hin. }
  rewrite (serve_proxied v name env req p Hrun Hpn Hm Hp).
  destruct (proxied_rewrite v name Hpn) as (_ & Ht & _).
  assert (upstreamOf v name = controller v) as Hc.
  { destruct v; simpl in Hin;
      repeat (destruct Hin as [<- | Hin]; [reflexivity|]); destruct Hin. }
  rewrite Hnet by (cbn [Proxy.setupOutgoing Outgoing.target]; congruence).
  do 2 eexists. split; [reflexivity|]. cbn [App.response].
  rewrite relayed_header by assumption. unfold Proxy.headed.
  assert (forall r,
            Res.getHeader n
              (Proxy.writeHeaders
                 (ProxyRes.headers (Proxy.proxyRes (proxyFor v name) head)) r)
            = Res.getHeader n (Proxy.writeHeaders (ProxyRes.headers head) r)) as ->.
  { intros r. destruct Hparsed as [Hl _].
    destruct v; simpl in Hin;
      repeat (destruct Hin as [<- | Hin];
              [ first
                  [ reflexivity
                  | match goal with
                    | |- context [Proxy.proxyRes (proxyFor ?w ?c) head] =>
                        change (ProxyRes.headers (Proxy.proxyRes (proxyFor w c) head))
                          with (JsObject.set "Access-Control-Allow-Origin" "*"
                                  (ProxyRes.headers head))
                    end;
                    rewrite (assign_first _ _ _ Hl) by (vm_compute; discriminate);
                    rewrite writeHeaders_app; simpl;
                    apply getHeader_setHeader_other; exact Hn ]
              | ]);
      destruct Hin. }
  rewrite (writeHeaders_get _ _ _ Hparsed). now rewrite Hsent.
Qed.

Lemma upstream_headers_pass_through_witness :
  exists p' x,
    App.serve (Samples.network (Responds Cases.reading Cases.json))
      (Samples.get "/api/sensor") (App.listen Index.app)
    = Some (p', Some x) /\
    Res.getHeader "Content-Type" (App.response x) = Some "application/json".
Proof.
  apply (upstream_headers_pass_through Current "sensor"
           (Samples.network (Responds Cases.reading Cases.json))
           (Samples.get "/api/sensor") (App.listen Index.app)
           true Cases.reading Cases.json "Content-Type" "application/json").
  - split; reflexivity.
  - simpl. tauto.
  - reflexivity.
  - reflexivity.
  - split; [reflexivity|].
    repeat (constructor; [simpl; intuition discriminate|]). constructor.
  - reflexivity.
  - vm_compute. discriminate.
  - vm_compute. discriminate.
  - vm_compute. discriminate.
  - reflexivity.
Defined.

(** X12.  On the stream route of [src/index.js] each header the camera
    sent with its answer, other than the five that [onProxyRes] assigns
    and other than [Connection] and [Transfer-Encoding], reaches the
    client with the camera's value. *)
Theorem stream_other_headers_pass_through (env : Env) (req : Req.t)
    (p : App.Process) (closed : bool) (head : ProxyRes.t)
    (chunks : list Http.chunk) (n value : string) :
  running Current p ->
  Express.get_accepts (Req.method req) = true ->
  JsString.pathname (Req.url req) = "/api/stream" ->
  parsed (ProxyRes.headers head) ->
  (forall up, Outgoing.target up = camera Current ->
              net env up = answer closed head chunks) ->
  ~ In (JsString.toLowerCase n) streamOverrides ->
  JsString.toLowerCase n <> "connection" ->
  JsString.toLowerCase n <> "transfer-encoding" ->
  JsObject.get (JsString.toLowerCase n) (ProxyRes.headers head) = Some value ->
  exists p' x,
    App.serve env req p = Some (p', Some x) /\
    Res.getHeader n (App.response x) = Some value.
Proof.
  intros Hrun Hm Hp Hparsed Hnet Hn Hconn Hte Hsent.
  assert (In "stream" (proxiedNames Current)) as Hpn by (simpl; tauto).
  rewrite (serve_proxied Current "stream" env req p Hrun Hpn Hm Hp).
  rewrite Hnet by reflexivity.
  do 2 eexists. split; [reflexivity|]. cbn [App.response].
  rewrite relayed_header by assumption. unfold Proxy.headed.
  change (proxyFor Current "stream") with Index.stream.
  rewrite (stream_proxyRes_headers head (proj1 Hparsed)), writeHeaders_app.
  unfold Proxy.writeHeaders at 1. cbn [fold_left fst snd].
  unfold streamOverrides in Hn. simpl in Hn.
  repeat (rewrite getHeader_setHeader_other
            by (intros C; apply Hn; rewrite C; simpl; tauto)).
  rewrite (writeHeaders_get _ _ _ Hparsed). now rewrite Hsent.
Qed.

Lemma stream_other_headers_pass_through_witness :
  exists p' x,
    App.serve (Samples.network (Streaming Cases.reading Samples.frames))
      (Samples.get "/api/stream") (App.listen Index.app)
    = Some (p', Some x) /\
    Res.getHeader "X-Uptime" (App.response x) = Some "42".
Proof.
  apply (stream_other_headers_pass_through
           (Samples.network (Streaming Cases.reading Samples.frames))
           (Samples.get "/api/stream") (App.listen Index.app)
           false Cases.reading Samples.frames "X-Uptime" "42").
  - split; reflexivity.
  - reflexivity.
  - reflexivity.
  - split; [reflexivity|].
    repeat (constructor; [simpl; intuition discriminate|]). constructor.
  - reflexivity.
  - vm_compute. intuition discriminate.
  - vm_compute. discriminate.
  - vm_compute. discriminate.
  - reflexivity.
Defined.

(** X13.  In both versions a GET request for [/] is answered by the
    gateway itself with status 200 and the HTML page built from the port
    and the two configured addresses; nothing is sent upstream and the
    process is left as it was. *)
Theorem root_page_served (v : Version) (env : Env) (req : Req.t)
    (p : App.Process) :
  running v p ->
  Req.method req = Http.GET ->
  JsString.pathname (Req.url req) = "/" ->
  exists x,
    App.serve env req p = Some (p, Some x) /\
    App.sent x = [] /\
    Res.statusCode (App.response x) = 200 /\
    Res.body (App.response x)
    = [Http.Page match v with Current => true | Earlier => false end
         3000 (ESP_CAR_IP v) (ESP_CAM_IP v)] /\
    Res.getHeader "Access-Control-Allow-Origin" (App.response x) = Some "*" /\
    Res.finished (App.response x) = true.
Proof.
  intros Hrun Hg Hp.
  assert (Express.get_accepts (Req.method req) = true) as Hm by now rewrite Hg.
  assert (App.lookup (App.routes (app v)) (Req.method req)
            (JsString.pathname (Req.url req))
          = Some (App.get "/"
                    (App.Callback match v with
                                  | Current => Index.root
                                  | Earlier => Part000.root
                                  end))) as Hl.
  { rewrite Hp. destruct v; simpl; rewrite Hm; reflexivity. }
  rewrite (serve_callback v p env req _ _ Hrun Hm Hl).
  destruct Hrun as [Ht Ha]. destruct p as [t a e h]. simpl in Ht, Ha. subst t a.
  rewrite Hg. destruct v; simpl; rewrite !app_nil_r;
    eexists; (split; [reflexivity|]); repeat (split; [reflexivity|]);
    reflexivity.
Qed.

Lemma root_page_served_witness :
  exists x,
    App.serve (Samples.network (Unreachable Http.ENOTFOUND)) (Samples.get "/?x=1")
      (App.listen Part000.app) = Some (App.listen Part000.app, Some x) /\
    App.sent x = [] /\
    Res.statusCode (App.response x) = 200 /\
    Res.body (App.response x)
    = [Http.Page false 3000 "192.168.4.1" "192.168.1.100"] /\
    Res.getHeader "Access-Control-Allow-Origin" (App.response x) = Some "*" /\
    Res.finished (App.response x) = true.
Proof.
  apply (root_page_served Earlier (Samples.network (Unreachable Http.ENOTFOUND))
           (Samples.get "/?x=1") (App.listen Part000.app)).
  - split; reflexivity.
  - reflexivity.
  - reflexivity.
Defined.

(** X14.  In the earlier version, when the controller cannot be reached
    the sensor route and every command route answer a GET request with
    status 500 and the JSON object [{error: "Proxy error for <name>"}]
    and keep the CORS header; the process stays up.  The [onError] of
    these routes makes no [console.error] call of its own: what reaches
    the standard error is the one line with which the proxy package
    reports the error. *)
Theorem earlier_unreachable_500 (name : string) (env : Env) (req : Req.t)
    (p : App.Process) (code : Http.Errno) :
  running Earlier p ->
  In name (proxiedNames Earlier) ->
  Req.method req = Http.GET ->
  JsString.pathname (Req.url req) = "/api/" ++ name ->
  (forall up, Outgoing.target up = controller Earlier ->
              net env up = Unreachable code) ->
  exists p' x,
    App.serve env req p = Some (p', Some x) /\
    Res.statusCode (App.response x) = 500 /\
    Res.body (App.response x)
    = [Http.Encoded
         (Http.JObject [("error", Http.JString ("Proxy error for " ++ name))])] /\
    Res.getHeader "Access-Control-Allow-Origin" (App.response x) = Some "*" /\
    Res.finished (App.response x) = true /\
    running Earlier p' /\
    App.stderr p' = App.stderr p /\
    App.hpm p' = (App.hpm p ++ [Http.NetworkError code])%list.
Proof.
  intros Hrun Hin Hg Hp Hnet.
  assert (Express.get_accepts (Req.method req) = true) as Hm by now rewrite Hg.
  rewrite (serve_proxied Earlier name env req p Hrun Hin Hm Hp).
  destruct (proxied_rewrite Earlier name Hin) as (_ & Ht & _).
  assert (upstreamOf Earlier name = controller Earlier) as Hc.
  { simpl in Hin.
    repeat (destruct Hin as [<- | Hin]; [reflexivity|]). destruct Hin. }
  rewrite Hnet by (cbn [Proxy.setupOutgoing Outgoing.target]; congruence).
  rewrite Hg.
  do 2 eexists. split; [reflexivity|].
  cbn [App.response App.stderr App.hpm settledRes settledLog settledReports
       failureLog].
  split; [reflexivity|].
  split.
  { simpl in Hin.
    repeat (destruct Hin as [<- | Hin]; [reflexivity|]). destruct Hin. }
  split; [reflexivity|].
  split; [reflexivity|].
  split; [split; reflexivity|].
  split; [apply app_nil_r|reflexivity].
Qed.

Lemma earlier_unreachable_500_witness :
  exists p' x,
    App.serve (Samples.network (Unreachable Http.ECONNREFUSED))
      (Samples.get "/api/backward") (App.listen Part000.app)
    = Some (p', Some x) /\
    Res.statusCode (App.response x) = 500 /\
    Res.body (App.response x)
    = [Http.Encoded
         (Http.JObject [("error", Http.JString "Proxy error for backward")])] /\
    Res.getHeader "Access-Control-Allow-Origin" (App.response x) = Some "*" /\
    Res.finished (App.response x) = true /\
    running Earlier p' /\
    App.stderr p' = [] /\
    App.hpm p' = [Http.NetworkError Http.ECONNREFUSED].
Proof.
  apply (earlier_unreachable_500 "backward"
           (Samples.network (Unreachable Http.ECONNREFUSED))
           (Samples.get "/api/backward") (App.listen Part000.app)
           Http.ECONNREFUSED).
  - split; reflexivity.
  - simpl. tauto.
  - reflexivity.
  - reflexivity.
  - reflexivity.
Defined.

(** X15.  The [onProxyRes] of the earlier version's stream route assigns
    exactly three properties of [proxyRes.headers]: [Content-Type],
    [Access-Control-Allow-Origin] and [Cache-Control] (to [no-cache]);
    every other property, [Pragma] and [Expires] among them, keeps the
    value it had. *)
Theorem earlier_stream_onProxyRes (head : ProxyRes.t) :
  let headers := ProxyRes.headers (Proxy.proxyRes Part000.stream head) in
  JsObject.get "Content-Type" headers
  = Some "multipart/x-mixed-replace; boundary=123456789000000000000987654321" /\
  JsObject.get "Access-Control-Allow-Origin" headers = Some "*" /\
  JsObject.get "Cache-Control" headers = Some "no-cache" /\
  forall k,
    k <> "Content-Type" -> k <> "Access-Control-Allow-Origin" ->
    k <> "Cache-Control" ->
    JsObject.get k headers = JsObject.get k (ProxyRes.headers head).
Proof.
  intros headers. subst headers.
  change (ProxyRes.headers (Proxy.proxyRes Part000.stream head))
    with (JsObject.set "Cache-Control" "no-cache"
           (JsObject.set "Access-Control-Allow-Origin" "*"
             (JsObject.set "Content-Type"
                "multipart/x-mixed-replace; boundary=123456789000000000000987654321"
                (ProxyRes.headers head)))).
  split.
  { rewrite !get_set_other by discriminate. apply get_set_same. }
  split.
  { rewrite get_set_other by discriminate. apply get_set_same. }
  split; [apply get_set_same|].
  intros k H1 H2 H3. now rewrite !get_set_other by assumption.
Qed.

(** X16.  In [src/index.js], when the upstream of a proxied route cannot
    be reached, the answer to a GET request is that of the route's
    [onError]: the JSON object [{error: "Proxy error for <name>"}] on
    the sensor and command routes, the text
    [Stream unavailable - Check CAM IP connectivity] on the stream
    route, each with status 500 and the CORS header.  Two lines reach
    the standard error: the one [onError] writes, made of the route's
    prefix and the error, and the one with which the proxy package
    reports the error. *)
Theorem index_failure_answer (name : string) (env : Env) (req : Req.t)
    (p : App.Process) (code : Http.Errno) :
  running Current p ->
  In name (proxiedNames Current) ->
  Req.method req = Http.GET ->
  JsString.pathname (Req.url req) = "/api/" ++ name ->
  (forall up, Outgoing.target up = upstreamOf Current name ->
              net env up = Unreachable code) ->
  exists p' x,
    App.serve env req p = Some (p', Some x) /\
    Res.statusCode (App.response x) = 500 /\
    Res.body (App.response x)
    = [if String.eqb name "stream"
       then Http.Text "Stream unavailable - Check CAM IP connectivity"
       else Http.Encoded
              (Http.JObject [("error", Http.JString ("Proxy error for " ++ name))])] /\
    Res.getHeader "Access-Control-Allow-Origin" (App.response x) = Some "*" /\
    App.stderr p'
    = (App.stderr p
       ++ [(if String.eqb name "sensor" then "Sensor proxy error:"
            else if String.eqb name "stream" then "Stream proxy error:"
            else (name ++ " proxy error:")%string,
            Http.NetworkError code)])%list /\
    App.hpm p' = (App.hpm p ++ [Http.NetworkError code])%list.
Proof.
  intros Hrun Hin Hg Hp Hnet.
  assert (Express.get_accepts (Req.method req) = true) as Hm by now rewrite Hg.
  rewrite (serve_proxied Current name env req p Hrun Hin Hm Hp).
  destruct (proxied_rewrite Current name Hin) as (_ & Ht & _).
  rewrite Hnet by (cbn [Proxy.setupOutgoing Outgoing.target]; congruence).
  rewrite Hg.
  do 2 eexists. split; [reflexivity|].
  cbn [App.response App.stderr App.hpm settledRes settledLog settledReports
       failureLog].
  split; [reflexivity|].
  split; [reflexivity|].
  split; [reflexivity|].
  split; reflexivity.
Qed.

Lemma index_failure_answer_witness :
  exists p' x,
    App.serve (Samples.network (Unreachable Http.EHOSTUNREACH))
      (Samples.get "/api/stream") (App.listen Index.app)
    = Some (p', Some x) /\
    Res.statusCode (App.response x) = 500 /\
    Res.body (App.response x)
    = [Http.Text "Stream unavailable - Check CAM IP connectivity"] /\
    Res.getHeader "Access-Control-Allow-Origin" (App.response x) = Some "*" /\
    App.stderr p'
    = [("Stream proxy error:", Http.NetworkError Http.EHOSTUNREACH)] /\
    App.hpm p' = [Http.NetworkError Http.EHOSTUNREACH].
Proof.
  apply (index_failure_answer "stream"
           (Samples.network (Unreachable Http.EHOSTUNREACH))
           (Samples.get "/api/stream") (App.listen Index.app)
           Http.EHOSTUNREACH).
  - split; reflexivity.
  - simpl. tauto.
  - reflexivity.
  - reflexivity.
  - reflexivity.
Defined.

(** X17.  The sensor route and the stream route relay like the command
    routes: on every proxied route of either version the answer to a GET
    request has the upstream's status code and, chunk by chunk, the
    upstream's body, and it is ended exactly when the upstream has
    ended. *)
Theorem proxied_response_relayed (v : Version) (name : string) (env : Env)
    (req : Req.t) (p : App.Process) (closed : bool) (head : ProxyRes.t)
    (chunks : list Http.chunk) :
  running v p ->
  In name (proxiedNames v) ->
  Req.method req = Http.GET ->
  JsString.pathname (Req.url req) = "/api/" ++ name ->
  (forall up, Outgoing.target up = upstreamOf v name ->
              net env up = answer closed head chunks) ->
  exists p' x,
    App.serve env req p = Some (p', Some x) /\
    Res.statusCode (App.response x) = ProxyRes.statusCode head /\
    Res.body (App.response x) = map Http.Buffer chunks /\
    Res.received (Res.body (App.response x)) = concat chunks /\
    Res.finished (App.response x) = closed /\
    App.stderr p' = App.stderr p.
Proof.
  intros Hrun Hin Hg Hp Hnet.
  assert (Express.get_accepts (Req.method req) = true) as Hm by now rewrite Hg.
  rewrite (serve_proxied v name env req p Hrun Hin Hm Hp).
  destruct (proxied_rewrite v name Hin) as (_ & Ht & _).
  rewrite Hnet by (cbn [Proxy.setupOutgoing Outgoing.target]; congruence).
  rewrite Hg.
  do 2 eexists. split; [reflexivity|]. cbn [App.response App.stderr].
  rewrite relayed_status, relayed_body by (destruct v; reflexivity).
  rewrite relayed_finished by (destruct v; reflexivity).
  replace (Res.body (res (afterCors (app v) Http.GET))) with (@nil Http.Payload)
    by (destruct v; reflexivity).
  split.
  { destruct v; simpl in Hin;
      repeat (destruct Hin as [<- | Hin]; [reflexivity|]); destruct Hin. }
  split; [reflexivity|].
  split; [apply received_buffers|].
  split; [reflexivity|].
  destruct closed; unfold answer, settledLog;
    destruct (failureLog v name); apply app_nil_r.
Qed.

Lemma proxied_response_relayed_witness :
  exists p' x,
    App.serve (Samples.network (Responds Cases.reading Cases.json))
      (Samples.get "/api/sensor") (App.listen Part000.app)
    = Some (p', Some x) /\
    Res.statusCode (App.response x) = 200 /\
    Res.body (App.response x) = map Http.Buffer Cases.json /\
    Res.received (Res.body (App.response x)) = concat Cases.json /\
    Res.finished (App.response x) = true /\
    App.stderr p' = [].
Proof.
  apply (proxied_response_relayed Earlier "sensor"
           (Samples.network (Responds Cases.reading Cases.json))
           (Samples.get "/api/sensor") (App.listen Part000.app)
           true Cases.reading Cases.json).
  - split; reflexivity.
  - simpl. tauto.
  - reflexivity.
  - reflexivity.
  - reflexivity.
Defined.

End Coverage.
